(** * Ranking sessions: the routes of backend/src/routes/rank.js

    A shallow embedding of the four route handlers of the rank router
    (POST /upload, POST /stored, GET /history, GET /history/:id), of the
    RankResult schema they persist through, and of the Express error
    handler they fall back on.

    The handlers are state-passing functions over a [world] (the RankResult
    collection, the temporary upload directory, the log of calls made to the
    scoring engine).  What the handlers obtain from outside the repository
    (the scoring engine, JSON.parse, the casts of the persistence layer
    that the routes do not determine) is gathered in a [Platform] record;
    the theorems hold for every platform. *)

From Stdlib Require Import QArith ZArith NArith String Ascii List DecimalString.
From Stdlib Require Import Sorted Permutation.
From stdpp Require Import gmap strings list.
Import ListNotations.

Local Open Scope string_scope.
Local Open Scope nat_scope.

#[local] Set Warnings "-clear-no-such-hyp".

(** ** JavaScript values

    The plain data the handlers move around: what JSON.parse yields, plus
    the two BSON scalars a stored document carries (an ObjectId, a 96-bit
    number, and a Date, in milliseconds).  Numbers are kept as the rational
    their literal denotes; the handlers never compute with them.  An object
    is the sequence of its own enumerable properties, in insertion order. *)

#[local] Set Warnings "-register-all".

Inductive value : Type :=
| VNull
| VBool (b : bool)
| VNum (q : Q)
| VStr (s : string)
| VArr (l : list value)
| VObj (o : list (string * value))
| VOid (i : N)
| VDate (t : Z).

Abbreviation obj := (list (string * value)).
Abbreviation oid := N.

Module JS.

(** [!!v] of the language: null, false, 0 and the empty string are falsy. *)
Definition truthy (v : value) : bool :=
  match v with
  | VNull => false
  | VBool b => b
  | VNum q => negb (Z.eqb (Qnum q) 0)
  | VStr s => negb (String.eqb s "")
  | VArr _ | VObj _ | VOid _ | VDate _ => true
  end.

(** A value that may be [undefined] is an [option]; [undefined] is falsy. *)
Definition truthy_opt (v : option value) : bool :=
  match v with
  | Some x => truthy x
  | None => false
  end.

(** A multipart text field: [Some s] when the field is truthy (present
    and not the empty string). *)
Definition truthy_text (f : option string) : option string :=
  match f with
  | Some s => if String.eqb s "" then None else Some s
  | None => None
  end.

(** [o[k]] on an object. *)
Fixpoint obj_get (k : string) (o : obj) : option value :=
  match o with
  | [] => None
  | (k', v) :: o' => if String.eqb k k' then Some v else obj_get k o'
  end.

(** [o[k] = v]: the value is replaced in place when [k] is already a
    property, and the property is appended otherwise. *)
Fixpoint obj_set (k : string) (v : value) (o : obj) : obj :=
  match o with
  | [] => [(k, v)]
  | (k', v') :: o' =>
      if String.eqb k k' then (k', v) :: o' else (k', v') :: obj_set k v o'
  end.

(** The properties of [o] other than [k] (the rest of a destructuring
    pattern that names [k]). *)
Definition obj_without (k : string) (o : obj) : obj :=
  List.filter (fun kv => negb (String.eqb k (fst kv))) o.

Definition keys (o : obj) : list string := List.map fst o.

Definition index_key (n : nat) : string :=
  NilZero.string_of_uint (Nat.to_uint n).

Fixpoint indexed_from (n : nat) (l : list value) : obj :=
  match l with
  | [] => []
  | v :: l' => (index_key n, v) :: indexed_from (S n) l'
  end.

Fixpoint chars (s : string) : list value :=
  match s with
  | EmptyString => []
  | String c s' => VStr (String c EmptyString) :: chars s'
  end.

(** The own enumerable properties of a non-null value, as object spread
    and object rest enumerate them: the properties of an object, the
    indices of an array or of a string, nothing for the other scalars. *)
Definition own_props (v : value) : obj :=
  match v with
  | VObj o => o
  | VArr l => indexed_from 0 l
  | VStr s => indexed_from 0 (chars s)
  | VNull | VBool _ | VNum _ | VOid _ | VDate _ => []
  end.

(** [v.k] on a value that is not null, for a [k] that names neither an
    index nor a built-in property: what an object holds under [k], and
    [undefined] on anything else. *)
Definition member (k : string) (v : value) : option value :=
  match v with
  | VObj o => obj_get k o
  | _ => None
  end.

(** [{ ...base, ...props }]: every own key of [props], in order, is read
    from [props] and set on top of the properties already in [base]. *)
Definition assign (base props : obj) : obj :=
  fold_left
    (fun acc kv => match obj_get (fst kv) props with
                   | Some v => obj_set (fst kv) v acc
                   | None => acc
                   end)
    props base.

End JS.

(** ** Errors

    An exception as the Express error handler reads it: an optional
    [status] and a [message].  Exceptions raised by libraries carry no
    status; their text is the platform's. *)

Inductive failure : Type :=
| FetchError        (* the engine could not be reached *)
| SyntaxError       (* JSON.parse *)
| TypeError         (* the language: property of null, call of a non-function *)
| ValidationError   (* Mongoose, on save *)
| CastError         (* Mongoose, on a query filter *)
| MongoError.       (* the database: unavailable, or a duplicate _id *)

Record exn : Type := { exn_status : option nat; exn_message : string }.

Inductive result (A : Type) : Type :=
| Ok (a : A)
| Throw (e : exn).
Arguments Ok {A} a.
Arguments Throw {A} e.

Definition bind {A B : Type} (r : result A) (k : A -> result B) : result B :=
  match r with
  | Ok a => k a
  | Throw e => Throw e
  end.

Notation "'let*' x ':=' r 'in' k" := (bind r (fun x => k))
  (at level 10, x name, r at level 100, k at level 200).

Fixpoint map_result {A B : Type} (f : A -> result B) (l : list A) : result (list B) :=
  match l with
  | [] => Ok []
  | a :: l' =>
      let* b := f a in
      let* bs := map_result f l' in
      Ok (b :: bs)
  end.

(** ** The platform *)

Inductive engine_request : Type :=
| RankUpload (jd : string) (weights : option string) (resumes : list (string * string))
| RankStored (jd : value) (top_k : value).

Inductive fetch_outcome : Type :=
| FetchFailed
| FetchResponse (status : nat) (body : string).

Record Platform : Type := {
  (** the scoring engine behind [fetch]: sending a form either throws or
      yields a status and a body text *)
  fetch : engine_request -> fetch_outcome;
  (** [JSON.parse]; [None] is a SyntaxError *)
  JSON_parse : string -> option value;
  (** Mongoose's cast of a request string to an ObjectId; [None] is a
      CastError *)
  castObjectId : string -> option oid;
  (** Mongoose's String cast of a value that is not a string *)
  castString_other : value -> option string;
  (** Mongoose's Number cast of a value that is not a number; the result
      is the number, or null *)
  castNumber_other : value -> option value;
  (** what Mongoose makes of the nested path [weights] when it is given a
      value that is not an object: it refuses the document ([None]),
      leaves the path out of it, or stores an object under it *)
  castNested_other : value -> option (option obj);
  (** Mongoose's cast of one ranking item to rankItemSchema *)
  castRankItem : obj -> option obj;
  (** the text of a library exception *)
  errmsg : failure -> string
}.

Definition raise (P : Platform) (f : failure) : exn :=
  {| exn_status := None; exn_message := errmsg P f |}.

Definition of_option {A : Type} (P : Platform) (f : failure) (o : option A) : result A :=
  match o with
  | Some a => Ok a
  | None => Throw (raise P f)
  end.

(** ** The RankResult model (models/RankResult.js)

    A stored document is the object MongoDB holds.  [create] builds it the
    way the schema prescribes: [owner] and [jobDescription] are required,
    every ranking item is cast to rankItemSchema, the four [weights] paths
    default to 0.5, 0.25, 0.15 and 0.1, and [timestamps] adds [createdAt]
    and [updatedAt]. *)

Record world : Type := {
  db_up : bool;                        (* is the database reachable *)
  db : list obj;                       (* the RankResult collection, oldest first *)
  disk : gset string;                  (* the paths present under tmp_rank *)
  engine_calls : list engine_request   (* the requests sent to the engine, oldest first *)
}.

(** What a request takes from its surroundings: the ObjectId the driver
    generates for a new document, and the clock. *)
Record request_env : Type := { fresh_id : oid; now : Z }.

Module RankResult.

(** The defaults of the schema, 0.5, 0.25, 0.15 and 0.1, in lowest terms. *)
Definition weight_defaults : list (string * Q) :=
  [("semantic", 1 # 2); ("skill", 1 # 4); ("experience", 3 # 20); ("education", 1 # 10)]%Q.

(** One path of [weights]: a missing property takes the default, a
    number is kept as it is, anything else goes through the Number cast. *)
Definition cast_weight (P : Platform) (given : obj) (kd : string * Q) : option (string * value) :=
  match JS.obj_get (fst kd) given with
  | None => Some (fst kd, VNum (snd kd))
  | Some (VNum q) => Some (fst kd, VNum q)
  | Some v => match castNumber_other P v with
              | Some n => Some (fst kd, n)
              | None => None
              end
  end.

Fixpoint cast_weight_paths (P : Platform) (given : obj) (kds : list (string * Q)) : option obj :=
  match kds with
  | [] => Some []
  | kd :: kds' =>
      match cast_weight P given kd, cast_weight_paths P given kds' with
      | Some p, Some ps => Some (p :: ps)
      | _, _ => None
      end
  end.

(** The nested path [weights] for the value the route hands over
    ([None] is [undefined]): the four paths with their defaults for an
    object and for [undefined]; for any other value, what Mongoose makes
    of it, which may be no [weights] at all. *)
Definition cast_weights (P : Platform) (w : option value) : option (option obj) :=
  match w with
  | None => option_map Some (cast_weight_paths P [] weight_defaults)
  | Some (VObj given) => option_map Some (cast_weight_paths P given weight_defaults)
  | Some v => castNested_other P v
  end.

(** The [weights] of a document, when it has any. *)
Definition weights_path (ws : option obj) : obj :=
  match ws with
  | Some o => [("weights", VObj o)]
  | None => []
  end.

(** The paths of rankItemSchema. *)
Definition rankItem_paths : list string :=
  ["resume"; "filename"; "candidate_name"; "rank"; "total_score"; "fit_category";
   "fit_description"; "summary"; "score_breakdown"; "matched_skills";
   "missing_skills"; "skill_match_pct"; "experience_status"; "experience_gap";
   "education"; "recommendations"].

(** [jobDescription: { type: String, required: true }]. *)
Definition cast_jobDescription (P : Platform) (jd : value) : option string :=
  let cast := match jd with
              | VStr s => Some s
              | v => castString_other P v
              end in
  match cast with
  | Some s => if String.eqb s "" then None else Some s
  | None => None
  end.

Fixpoint cast_rankings (P : Platform) (items : list obj) : option (list value) :=
  match items with
  | [] => Some []
  | it :: items' =>
      match castRankItem P it, cast_rankings P items' with
      | Some d, Some ds => Some (VObj d :: ds)
      | _, _ => None
      end
  end.

(** The argument of [RankResult.create] in the two routes. *)
Record input : Type := {
  in_owner : oid;
  in_jobDescription : value;
  in_rankings : list obj;
  in_weights : option value
}.

(** The document [new RankResult(input)] validates to, if it does. *)
Definition build (P : Platform) (env : request_env) (i : input) : option obj :=
  match cast_jobDescription P (in_jobDescription i),
        cast_rankings P (in_rankings i),
        cast_weights P (in_weights i) with
  | Some jd, Some items, Some ws =>
      Some ([("_id", VOid (fresh_id env));
             ("owner", VOid (in_owner i));
             ("jobDescription", VStr jd);
             ("rankings", VArr items)]
            ++ weights_path ws
            ++ [("createdAt", VDate (now env));
                ("updatedAt", VDate (now env));
                ("__v", VNum 0%Q)])%list
  | _, _, _ => None
  end.

Definition has_id (i : oid) (d : obj) : bool :=
  match JS.obj_get "_id" d with
  | Some (VOid j) => N.eqb i j
  | _ => false
  end.

Definition has_owner (o : oid) (d : obj) : bool :=
  match JS.obj_get "owner" d with
  | Some (VOid j) => N.eqb o j
  | _ => false
  end.

Definition insert (d : obj) (w : world) : world :=
  {| db_up := db_up w; db := db w ++ [d]; disk := disk w; engine_calls := engine_calls w |}.

(** [RankResult.create(input)]: validate, then insert; the insert fails
    when the database is away or the [_id] is taken. *)
Definition create (P : Platform) (env : request_env) (i : input) (w : world)
  : result obj * world :=
  match build P env i with
  | None => (Throw (raise P ValidationError), w)
  | Some d =>
      if negb (db_up w) then (Throw (raise P MongoError), w)
      else if existsb (has_id (fresh_id env)) (db w) then (Throw (raise P MongoError), w)
      else (Ok d, insert d w)
  end.

(** [doc._id]. *)
Definition _id (d : obj) : value := default VNull (JS.obj_get "_id" d).

End RankResult.

(** ** Queries on the collection *)

Module Query.

(** The argument of [.select] in GET /history, as the route writes it. *)
Definition history_fields : string :=
  "jobDescription rankings.rank rankings.filename rankings.total_score rankings.fit_category createdAt".

(** [s.split(c)] *)
Fixpoint split_at (c : ascii) (s : string) : list string :=
  match s with
  | EmptyString => [EmptyString]
  | String a s' =>
      match split_at c s' with
      | [] => [String a EmptyString]
      | w :: ws => if Ascii.eqb a c then EmptyString :: w :: ws
                   else String a w :: ws
      end
  end.

(** A select string as field paths: names separated by spaces, the
    segments of a name by dots. *)
Definition paths_of (fields : string) : list (list string) :=
  List.map (split_at ".") (split_at " " fields).

(** The paths below field [k]: the tails of the paths that start with [k]. *)
Fixpoint below (k : string) (paths : list (list string)) : list (list string) :=
  match paths with
  | [] => []
  | [] :: ps => below k ps
  | (h :: t) :: ps => if String.eqb k h then t :: below k ps else below k ps
  end.

Definition is_nil {A : Type} (l : list A) : bool :=
  match l with [] => true | _ => false end.

(** An inclusion projection below the top level: a field stays when a
    path names it; it stays whole when a path ends at it, and is itself
    projected when all paths go deeper.  Projecting into an array
    projects each of its documents and drops its scalars; projecting
    into a scalar drops the field. *)
Fixpoint project_value (paths : list (list string)) (v : value) {struct v} : option value :=
  match v with
  | VObj o =>
      Some (VObj
        ((fix fields (o : list (string * value)) : list (string * value) :=
            match o with
            | [] => []
            | (k, x) :: o' =>
                let sub := below k paths in
                if is_nil sub then fields o'
                else if existsb is_nil sub then (k, x) :: fields o'
                else match project_value sub x with
                     | Some y => (k, y) :: fields o'
                     | None => fields o'
                     end
            end) o))
  | VArr l =>
      Some (VArr
        ((fix elems (l : list value) : list value :=
            match l with
            | [] => []
            | x :: l' =>
                match project_value paths x with
                | Some y => y :: elems l'
                | None => elems l'
                end
            end) l))
  | VNull | VBool _ | VNum _ | VStr _ | VOid _ | VDate _ => None
  end.



(** The projection of a whole document: [_id] stays unless excluded. *)
Fixpoint select (paths : list (list string)) (d : obj) : obj :=
  match d with
  | [] => []
  | (k, x) :: d' =>
      if String.eqb k "_id" then (k, x) :: select paths d'
      else
        let sub := below k paths in
        if is_nil sub then select paths d'
        else if existsb is_nil sub then (k, x) :: select paths d'
        else match project_value sub x with
             | Some y => (k, y) :: select paths d'
             | None => select paths d'
             end
  end.

(** The sort key of [.sort({ createdAt: -1 })]: a document without a
    date sorts as null, below every date. *)
Definition createdAt (d : obj) : option Z :=
  match JS.obj_get "createdAt" d with
  | Some (VDate t) => Some t
  | _ => None
  end.

(** [a] is not newer than [b]. *)
Definition not_newer (a b : option Z) : bool :=
  match a, b with
  | None, _ => true
  | Some _, None => false
  | Some x, Some y => Z.leb x y
  end.

Fixpoint insert_newest_first (d : obj) (l : list obj) : list obj :=
  match l with
  | [] => [d]
  | e :: l' =>
      if not_newer (createdAt e) (createdAt d) then d :: e :: l'
      else e :: insert_newest_first d l'
  end.

Definition newest_first (l : list obj) : list obj :=
  fold_right insert_newest_first [] l.

(** [RankResult.find({ owner }).select(fields).sort({ createdAt: -1 }).limit(n)] *)
Definition find (owner : oid) (fields : string) (n : nat) (w : world) : list obj :=
  List.map (select (paths_of fields))
    (firstn n (newest_first (List.filter (RankResult.has_owner owner) (db w)))).

(** [RankResult.findOne({ _id, owner })] once the filter is cast. *)
Definition findOne (i owner : oid) (w : world) : option obj :=
  List.find (fun d => RankResult.has_id i d && RankResult.has_owner owner d) (db w).

End Query.

(** ** The temporary upload directory *)

Module Fs.

Inductive error : Type := ENOENT.

(** [fs.unlink(path, callback)]: the file goes away; the callback gets
    the error when there was no such file. *)
Definition unlink (p : string) (d : gset string) : option error * gset string :=
  if decide (p ∈ d) then (None, d ∖ {[p]}) else (Some ENOENT, d).

End Fs.

(** ** Requests and responses *)

(** A file as multer's disk storage hands it over. *)
Record file : Type := { path : string; originalname : string }.

(** POST /upload after [protect] and [tmpUpload.array("resumes", 20)]:
    the identity of the token, the text fields of the body, [req.files]
    ([None] when multer left it undefined). *)
Record upload_request : Type := {
  up_user : oid;
  up_jd : option string;
  up_weights : option string;
  up_files : option (list file)
}.

(** POST /stored after [protect]: the identity and the JSON body. *)
Record stored_request : Type := { st_user : oid; st_body : obj }.

Record response : Type := { status : nat; body : value }.

(** [res.json(v)] *)
Definition res_json (v : value) : response := {| status := 200; body := v |}.

(** [res.status(s).json({ error: msg })] *)
Definition res_error (s : nat) (msg : string) : response :=
  {| status := s; body := VObj [("error", VStr msg)] |}.

(** The error handler of the application:
    [res.status(err.status || 500).json({ error: err.message || "Internal server error" })]. *)
Definition error_handler (e : exn) : response :=
  res_error
    (match exn_status e with
     | Some s => if Nat.eqb s 0 then 500 else s
     | None => 500
     end)
    (if String.eqb (exn_message e) "" then "Internal server error" else exn_message e).

(** [mlRes.ok] *)
Definition res_ok (s : nat) : bool := Nat.leb 200 s && Nat.leb s 299.

(** ** The routes (routes/rank.js) *)

Module Rank.

Definition set_disk (d : gset string) (w : world) : world :=
  {| db_up := db_up w; db := db w; disk := d; engine_calls := engine_calls w |}.

Definition log_call (r : engine_request) (w : world) : world :=
  {| db_up := db_up w; db := db w; disk := disk w;
     engine_calls := engine_calls w ++ [r] |}.

(** [files.forEach((f) => fs.unlink(f.path, () => {}))]: the callback
    drops the error. *)
Definition unlink_each (files : list file) (w : world) : world :=
  fold_left (fun w f => set_disk (snd (Fs.unlink (path f) (disk w))) w) files w.

(** [({ resume: _r, ...rest }) => rest] *)
Definition strip_resume (P : Platform) (r : value) : result obj :=
  match r with
  | VNull => Throw (raise P TypeError)
  | _ => Ok (JS.obj_without "resume" (JS.own_props r))
  end.

(** [(data.rankings || []).map(strip_resume)] *)
Definition cleanRankings (P : Platform) (data : value) : result (list obj) :=
  match data with
  | VNull => Throw (raise P TypeError)
  | _ =>
      let rankings := JS.member "rankings" data in
      match (if JS.truthy_opt rankings then default (VArr []) rankings else VArr []) with
      | VArr l => map_result (strip_resume P) l
      | _ => Throw (raise P TypeError)
      end
  end.

(** [{ resultId: saved._id, ...data }] *)
Definition success_body (saved : obj) (data : value) : value :=
  VObj (JS.assign [("resultId", RankResult._id saved)] (JS.own_props data)).

(** The form POST /upload builds: [jd], [weights] when it is truthy, and
    each file under its original name. *)
Definition upload_form (jd : string) (weights : option string) (files : list file)
  : engine_request :=
  RankUpload jd (JS.truthy_text weights)
    (List.map (fun f => (path f, originalname f)) files).

(** The [try] block of POST /upload. *)
Definition upload_try (P : Platform) (env : request_env) (user : oid)
    (jd : string) (weights : option string) (files : list file) (w : world)
  : result value * world :=
  let form := upload_form jd weights files in
  let w := log_call form w in
  match fetch P form with
  | FetchFailed => (Throw (raise P FetchError), w)
  | FetchResponse st text =>
      if negb (res_ok st) then
        (Throw {| exn_status := Some st; exn_message := text |}, w)
      else
        match JSON_parse P text with
        | None => (Throw (raise P SyntaxError), w)
        | Some data =>
            match cleanRankings P data with
            | Throw e => (Throw e, w)
            | Ok clean =>
                match (match JS.truthy_text weights with
                       | Some t => match JSON_parse P t with
                                   | Some v => Ok (Some v)
                                   | None => Throw (raise P SyntaxError)
                                   end
                       | None => Ok None
                       end) with
                | Throw e => (Throw e, w)
                | Ok ws =>
                    match RankResult.create P env
                            {| RankResult.in_owner := user;
                               RankResult.in_jobDescription := VStr jd;
                               RankResult.in_rankings := clean;
                               RankResult.in_weights := ws |} w with
                    | (Throw e, w') => (Throw e, w')
                    | (Ok saved, w') => (Ok (success_body saved data), w')
                    end
                end
            end
        end
  end.

(** POST /upload *)
Definition upload (P : Platform) (env : request_env) (req : upload_request) (w : world)
  : response * world :=
  let files := default [] (up_files req) in
  match JS.truthy_text (up_jd req) with
  | None =>
      (res_error 400 "jd (job description) is required.", unlink_each files w)
  | Some jd =>
      if Nat.eqb (length files) 0 then
        (res_error 400 "At least one resume file is required.", w)
      else
        let '(r, w') := upload_try P env (up_user req) jd (up_weights req) files w in
        (match r with
         | Ok v => res_json v
         | Throw e => error_handler e
         end,
         unlink_each files w')
  end.

(** What [form.append(name, value)] of the form-data package can send as
    a text field: a string, or a number, which it turns into one.  With
    any other value (a boolean, an array, an object) the request throws
    before anything reaches the engine. *)
Definition sendable (v : value) : bool :=
  match v with
  | VStr _ | VNum _ => true
  | VNull | VBool _ | VArr _ | VObj _ | VOid _ | VDate _ => false
  end.

(** The [try] block of POST /stored.  The body is JSON, so [jd] is any
    value that is truthy. *)
Definition stored_try (P : Platform) (env : request_env) (user : oid)
    (jd top_k : value) (w : world) : result value * world :=
  if negb (sendable jd) then (Throw (raise P TypeError), w)
  else
  let form := RankStored jd top_k in
  let w := log_call form w in
  match fetch P form with
  | FetchFailed => (Throw (raise P FetchError), w)
  | FetchResponse st text =>
      if negb (res_ok st) then
        (Throw {| exn_status := None; exn_message := text |}, w)
      else
        match JSON_parse P text with
        | None => (Throw (raise P SyntaxError), w)
        | Some data =>
            match cleanRankings P data with
            | Throw e => (Throw e, w)
            | Ok clean =>
                match RankResult.create P env
                        {| RankResult.in_owner := user;
                           RankResult.in_jobDescription := jd;
                           RankResult.in_rankings := clean;
                           RankResult.in_weights := None |} w with
                | (Throw e, w') => (Throw e, w')
                | (Ok saved, w') => (Ok (success_body saved data), w')
                end
            end
        end
  end.

(** POST /stored *)
Definition stored (P : Platform) (env : request_env) (req : stored_request) (w : world)
  : response * world :=
  let jd := JS.obj_get "jd" (st_body req) in
  let top_k := default (VNum 20%Q) (JS.obj_get "top_k" (st_body req)) in
  match jd with
  | Some j =>
      if JS.truthy j then
        let '(r, w') := stored_try P env (st_user req) j top_k w in
        (match r with
         | Ok v => res_json v
         | Throw e => error_handler e
         end, w')
      else (res_error 400 "jd is required.", w)
  | None => (res_error 400 "jd is required.", w)
  end.

(** GET /history *)
Definition history (P : Platform) (user : oid) (w : world) : response :=
  if db_up w then
    res_json (VArr (List.map VObj (Query.find user Query.history_fields 50 w)))
  else error_handler (raise P MongoError).

(** GET /history/:id *)
Definition history_item (P : Platform) (user : oid) (id : string) (w : world) : response :=
  match castObjectId P id with
  | None => error_handler (raise P CastError)
  | Some i =>
      if db_up w then
        match Query.findOne i user w with
        | Some result => res_json (VObj result)
        | None => res_error 404 "Not found."
        end
      else error_handler (raise P MongoError)
  end.

End Rank.

(** ** Submissions *)

(** A submission on either path, and the route that serves it. *)
Inductive submission : Type :=
| Upload (req : upload_request)
| Stored (req : stored_request).

Definition submit (P : Platform) (env : request_env) (s : submission) (w : world)
  : response * world :=
  match s with
  | Upload req => Rank.upload P env req w
  | Stored req => Rank.stored P env req w
  end.

Definition submitter (s : submission) : oid :=
  match s with
  | Upload req => up_user req
  | Stored req => st_user req
  end.

(** The request a submission sends the engine once it has passed the
    checks of its route; [None] when the route answers 400 first, or
    cannot send its job description. *)
Definition engine_call_of (s : submission) : option engine_request :=
  match s with
  | Upload req =>
      match JS.truthy_text (up_jd req) with
      | Some jd =>
          if Nat.eqb (length (default [] (up_files req))) 0 then None
          else Some (Rank.upload_form jd (up_weights req) (default [] (up_files req)))
      | None => None
      end
  | Stored req =>
      match JS.obj_get "jd" (st_body req) with
      | Some j =>
          if JS.truthy j && Rank.sendable j then
            Some (RankStored j (default (VNum 20%Q) (JS.obj_get "top_k" (st_body req))))
          else None
      | None => None
      end
  end.

(** The records of the engine's envelope. *)
Definition engine_records (data : value) : list value :=
  match JS.member "rankings" data with
  | Some (VArr l) => l
  | _ => []
  end.





(** ** The vocabulary of the properties *)

(** The value of [weights ? JSON.parse(weights) : undefined]. *)
Definition given_weights (P : Platform) (weights : option string) (ws : option value) : Prop :=
  match JS.truthy_text weights with
  | Some t => exists v, JSON_parse P t = Some v /\ ws = Some v
  | None => ws = None
  end.

(** An exception the error handler does not answer with a success status. *)
Definition no_success_status (e : exn) : Prop :=
  match exn_status e with
  | Some s => res_ok s = false
  | None => True
  end.

(** The job description a submission carries past the checks. *)
Definition submitted_jd (s : submission) : option value :=
  match s with
  | Upload req => option_map VStr (JS.truthy_text (up_jd req))
  | Stored req => JS.obj_get "jd" (st_body req)
  end.

(** The weights a submission hands to [create]: the parsed text on the
    upload path, nothing on the stored path. *)
Definition submitted_weights (P : Platform) (s : submission) (ws : option value) : Prop :=
  match s with
  | Upload req => given_weights P (up_weights req) ws
  | Stored _ => ws = None
  end.

(** The trace of a submission that was answered 200. *)
Record succeeded (P : Platform) (env : request_env) (s : submission) (w : world)
    (data : value) (clean : list obj) (ws : option value) (saved : obj) : Prop := {
  ok_call : exists call st text,
      engine_call_of s = Some call /\ fetch P call = FetchResponse st text /\
      res_ok st = true /\ JSON_parse P text = Some data;
  ok_clean : Rank.cleanRankings P data = Ok clean;
  ok_weights : submitted_weights P s ws;
  ok_saved : exists jd, submitted_jd s = Some jd /\
      RankResult.build P env
        {| RankResult.in_owner := submitter s;
           RankResult.in_jobDescription := jd;
           RankResult.in_rankings := clean;
           RankResult.in_weights := ws |} = Some saved;
  ok_fresh : existsb (RankResult.has_id (fresh_id env)) (db w) = false;
  ok_response : fst (submit P env s w) = res_json (Rank.success_body saved data);
  ok_db : db (snd (submit P env s w)) = (db w ++ [saved])%list;
  ok_db_up : db_up (snd (submit P env s w)) = true
}.

(** No session has both this id and this owner. *)
Definition no_session_of (i user : oid) (w : world) : Prop :=
  forall d, In d (db w) -> RankResult.has_id i d = true -> RankResult.has_owner user d = false.

(** [item] is the engine record [r] normalized: no [resume], and every
    other property as [r] has it. *)
Definition normalized (r : value) (item : obj) : Prop :=
  r <> VNull /\
  JS.obj_get "resume" item = None /\
  forall k, k <> "resume" -> JS.obj_get k item = JS.obj_get k (JS.own_props r).

Definition resume_removed (r : value) : Prop :=
  JS.obj_get "resume" (JS.own_props r) = None.

(** The weight a stored session holds under [k]. *)
Definition persisted_weight (saved : obj) (k : string) : option value :=
  match JS.obj_get "weights" saved with
  | Some (VObj ws) => JS.obj_get k ws
  | _ => None
  end.

(** The worlds that further submissions lead to. *)
Inductive later (P : Platform) (w : world) : world -> Prop :=
| later_now : later P w w
| later_submit env s w' : later P w w' -> later P w (snd (submit P env s w')).






(** ** A concrete platform, to run the routes

    A reader of JSON texts (the grammar without string escapes and without
    exponents, which is all the examples need), the hexadecimal text of an
    ObjectId, and a platform that casts nothing: a value that does not
    already have the type its schema path asks for is refused. *)

Module Json.

Definition dquote : ascii := "034"%char.
Definition backslash : ascii := "092"%char.

Definition is_ws (c : ascii) : bool :=
  let n := nat_of_ascii c in
  Nat.eqb n 32 || Nat.eqb n 9 || Nat.eqb n 10 || Nat.eqb n 13.

Definition digit_of (c : ascii) : option Z :=
  let n := nat_of_ascii c in
  if Nat.leb 48 n && Nat.leb n 57 then Some (Z.of_nat (n - 48)) else None.

Fixpoint skip_ws (s : string) : string :=
  match s with
  | String c s' => if is_ws c then skip_ws s' else s
  | EmptyString => s
  end.

(** The digits at the head of [s]: their value on top of [acc], how many
    there are, and the rest. *)
Fixpoint digits (acc : Z) (count : nat) (s : string) : Z * nat * string :=
  match s with
  | String c s' =>
      match digit_of c with
      | Some d => digits (10 * acc + d)%Z (S count) s'
      | None => (acc, count, s)
      end
  | EmptyString => (acc, count, s)
  end.

Definition starts_with_zero (s : string) : bool :=
  match s with
  | String c _ => Ascii.eqb c "0"
  | EmptyString => false
  end.

(** [-? int frac?] *)
Definition number (s : string) : option (Q * string) :=
  let '(neg, s1) := match s with
                    | String "-" s' => (true, s')
                    | _ => (false, s)
                    end in
  let '(int, n, s2) := digits 0 0 s1 in
  if Nat.eqb n 0 || (starts_with_zero s1 && Nat.ltb 1 n) then None
  else
    let '(num, den, s3) :=
      match s2 with
      | String "." s' =>
          let '(all, k, s'') := digits int 0 s' in
          (all, k, s'')
      | _ => (int, 0, s2)
      end in
    match s2, den with
    | String "." _, 0 => None
    | _, _ =>
        Some (Qred (Qmake (if neg then - num else num)%Z (Z.to_pos (10 ^ Z.of_nat den))),
              s3)
    end.

(** The characters up to the closing quote. *)
Fixpoint string_body (s : string) : option (string * string) :=
  match s with
  | EmptyString => None
  | String c s' =>
      if Ascii.eqb c dquote then Some (EmptyString, s')
      else if Ascii.eqb c backslash || Nat.ltb (nat_of_ascii c) 32 then None
      else match string_body s' with
           | Some (t, r) => Some (String c t, r)
           | None => None
           end
  end.

Fixpoint drop_prefix (p s : string) : option string :=
  match p, s with
  | EmptyString, _ => Some s
  | String a p', String b s' => if Ascii.eqb a b then drop_prefix p' s' else None
  | String _ _, EmptyString => None
  end.

Definition literal (p : string) (v : value) (s : string) : option (value * string) :=
  match drop_prefix p s with
  | Some r => Some (v, r)
  | None => None
  end.

Fixpoint parse_value (fuel : nat) (s : string) : option (value * string) :=
  match fuel with
  | 0 => None
  | S fuel' =>
      match skip_ws s with
      | String "n" _ => literal "null" VNull (skip_ws s)
      | String "t" _ => literal "true" (VBool true) (skip_ws s)
      | String "f" _ => literal "false" (VBool false) (skip_ws s)
      | String "[" r =>
          match skip_ws r with
          | String "]" r' => Some (VArr [], r')
          | _ => match parse_elements fuel' r with
                 | Some (l, r') => Some (VArr l, r')
                 | None => None
                 end
          end
      | String "{" r =>
          match skip_ws r with
          | String "}" r' => Some (VObj [], r')
          | _ => match parse_members fuel' [] r with
                 | Some (o, r') => Some (VObj o, r')
                 | None => None
                 end
          end
      | String c r =>
          if Ascii.eqb c dquote then
            match string_body r with
            | Some (t, r') => Some (VStr t, r')
            | None => None
            end
          else match number (String c r) with
               | Some (q, r') => Some (VNum q, r')
               | None => None
               end
      | EmptyString => None
      end
  end
with parse_elements (fuel : nat) (s : string) : option (list value * string) :=
  match fuel with
  | 0 => None
  | S fuel' =>
      match parse_value fuel' s with
      | Some (v, r) =>
          match skip_ws r with
          | String "," r' =>
              match parse_elements fuel' r' with
              | Some (l, r'') => Some (v :: l, r'')
              | None => None
              end
          | String "]" r' => Some ([v], r')
          | _ => None
          end
      | None => None
      end
  end
with parse_members (fuel : nat) (acc : obj) (s : string) : option (obj * string) :=
  match fuel with
  | 0 => None
  | S fuel' =>
      match skip_ws s with
      | String c r =>
          if Ascii.eqb c dquote then
            match string_body r with
            | Some (k, r1) =>
                match skip_ws r1 with
                | String ":" r2 =>
                    match parse_value fuel' r2 with
                    | Some (v, r3) =>
                        match skip_ws r3 with
                        | String "," r4 => parse_members fuel' (JS.obj_set k v acc) r4
                        | String "}" r4 => Some (JS.obj_set k v acc, r4)
                        | _ => None
                        end
                    | None => None
                    end
                | _ => None
                end
            | None => None
            end
          else None
      | EmptyString => None
      end
  end.

Definition parse (s : string) : option value :=
  match parse_value (2 * String.length s + 2) s with
  | Some (v, r) => match skip_ws r with
                   | EmptyString => Some v
                   | _ => None
                   end
  | None => None
  end.

(** ["..."] around a text *)
Definition q (s : string) : string := String dquote s +:+ String dquote EmptyString.

End Json.

Module ObjectId.

Definition hex_digit (d : N) : ascii :=
  ascii_of_N (if N.ltb d 10 then 48 + d else 87 + d).

Fixpoint hex_of (n : nat) (i : N) (acc : string) : string :=
  match n with
  | 0 => acc
  | S n' => hex_of n' (i / 16)%N (String (hex_digit (i mod 16)%N) acc)
  end.

(** [id.toHexString()]: 24 hexadecimal digits. *)
Definition toHexString (i : oid) : string := hex_of 24 i EmptyString.

Definition hex_value (c : ascii) : option N :=
  let n := N_of_ascii c in
  if N.leb 48 n && N.leb n 57 then Some (n - 48)%N
  else if N.leb 97 n && N.leb n 102 then Some (n - 87)%N
  else if N.leb 65 n && N.leb n 70 then Some (n - 55)%N
  else None.

Fixpoint of_hex (acc : N) (s : string) : option N :=
  match s with
  | EmptyString => Some acc
  | String c s' =>
      match hex_value c with
      | Some d => of_hex (16 * acc + d)%N s'
      | None => None
      end
  end.

(** A string of 24 hexadecimal digits is an ObjectId. *)
Definition cast (s : string) : option oid :=
  if Nat.eqb (String.length s) 24 then of_hex 0%N s else None.

End ObjectId.

Module Demo.

(** Strict mode on an item whose properties already have their schema
    types: the properties the schema does not know are dropped. *)
Definition known_paths (it : obj) : option obj :=
  Some (List.filter
          (fun kv => existsb (String.eqb (fst kv)) RankResult.rankItem_paths) it).

Definition message (f : failure) : string :=
  match f with
  | FetchError => "request to the scoring engine failed"
  | SyntaxError => "Unexpected token in JSON"
  | TypeError => "Cannot read properties of null"
  | ValidationError => "RankResult validation failed"
  | CastError => "Cast to ObjectId failed"
  | MongoError => "MongoServerError"
  end.

Definition platform (engine : engine_request -> fetch_outcome) : Platform :=
  {| fetch := engine;
     JSON_parse := Json.parse;
     castObjectId := ObjectId.cast;
     castString_other := fun _ => None;
     castNumber_other := fun _ => None;
     castNested_other := fun _ => None;
     castRankItem := known_paths;
     errmsg := message |}.

(** An engine answer for one document. *)
Definition envelope : string :=
  "{" +:+ Json.q "count" +:+ ":1," +:+ Json.q "rankings" +:+ ":[{"
      +:+ Json.q "resume" +:+ ":" +:+ Json.q "alice.pdf" +:+ ","
      +:+ Json.q "filename" +:+ ":" +:+ Json.q "alice.pdf" +:+ ","
      +:+ Json.q "rank" +:+ ":1,"
      +:+ Json.q "total_score" +:+ ":0.82,"
      +:+ Json.q "fit_category" +:+ ":" +:+ Json.q "Strong Match" +:+ ","
      +:+ Json.q "matched_skills" +:+ ":[" +:+ Json.q "go" +:+ "]}]}".

Definition engine_up (_ : engine_request) : fetch_outcome := FetchResponse 200 envelope.
Definition engine_down (_ : engine_request) : fetch_outcome := FetchFailed.
Definition engine_refuses (_ : engine_request) : fetch_outcome :=
  FetchResponse 422 "weights must sum to 1".
Definition engine_garbled (_ : engine_request) : fetch_outcome :=
  FetchResponse 200 "<html>".


Definition empty_world : world :=
  {| db_up := true; db := []; disk := {[ "tmp_rank/f1" ]}; engine_calls := [] |}.

Definition env1 : request_env := {| fresh_id := 4096%N; now := 1700000000000%Z |}.

Definition alice : file := {| path := "tmp_rank/f1"; originalname := "alice.pdf" |}.

Definition upload_with (weights : option string) : upload_request :=
  {| up_user := 7%N;
     up_jd := Some "Senior backend engineer, 5+ years Go, Kubernetes";
     up_weights := weights;
     up_files := Some [alice] |}.

Definition weights_text : string :=
  "{" +:+ Json.q "semantic" +:+ ":0.6," +:+ Json.q "skill" +:+ ":0.2,"
      +:+ Json.q "experience" +:+ ":0.1," +:+ Json.q "education" +:+ ":0.1}".

Definition negative_weights_text : string :=
  "{" +:+ Json.q "semantic" +:+ ":-1}".

Definition env2 : request_env := {| fresh_id := 4097%N; now := 1700000060000%Z |}.

(** The platform with the engine answering. *)
Definition up : Platform := platform engine_up.

Definition stored_request1 : stored_request :=
  {| st_user := 7%N;
     st_body := [("jd", VStr "Senior backend engineer"); ("top_k", VNum 5%Q)] |}.

End Demo.

(** ** The middleware in front of the routes

    [protect] of middleware/auth.js, the multer instance [tmpUpload] of
    routes/rank.js, and the four routes behind them. *)

Module Auth.

(** [header.split(" ")[1]] *)
Definition token_of (header : string) : option string :=
  nth_error (Query.split_at " " header) 1.

(** What the middleware does with a request: it answers, and [next] is
    not called; or it sets [req.user] and calls [next]. *)
Inductive verdict : Type :=
| Rejected (r : response)
| Verified (user : oid).

(** [protect].  [verify] is [jwt.verify] with the secret of the server:
    the [id] of the payload the token was signed for, [None] when it
    throws.  The routes read nothing else of [req.user]. *)
Definition protect (verify : string -> option oid) (authorization : option string)
  : verdict :=
  match authorization with
  | None => Rejected (res_error 401 "No token provided.")
  | Some header =>
      if String.eqb header "" || negb (String.prefix "Bearer " header) then
        Rejected (res_error 401 "No token provided.")
      else
        match token_of header with
        | Some token =>
            match verify token with
            | Some user => Verified user
            | None => Rejected (res_error 401 "Invalid or expired token.")
            end
        | None => Rejected (res_error 401 "Invalid or expired token.")
        end
  end.

End Auth.

Module Multer.

(** A file part of a multipart body as multer meets it: the field it was
    sent under, the file name the client gave, [file.mimetype] (what
    busboy reads from the Content-Type of the part, not the text of the
    header: a header that differs in case or carries parameters reads as
    the same type), whether busboy found it larger than [limits.fileSize]
    (10 MB), and the path the disk storage gives it. *)
Record part : Type := {
  part_fieldname : string;
  part_originalname : string;
  part_mimetype : string;
  part_too_large : bool;
  part_path : string
}.

(** The [fileFilter] of [tmpUpload] (and of [upload] in routes/resumes.js),
    on [file.mimetype]. *)
Definition fileFilter (mimetype : string) : result bool :=
  if String.eqb mimetype "application/pdf" then Ok true
  else Throw {| exn_status := None; exn_message := "Only PDF files are allowed." |}.

(** The refusals of multer itself, by the code of the MulterError. *)
Inductive limit : Type := LIMIT_FILE_COUNT | LIMIT_FILE_SIZE | LIMIT_UNEXPECTED_FILE.

Definition stored_file (p : part) : file :=
  {| path := part_path p; originalname := part_originalname p |}.

(** [multer({ limits: { files }, fileFilter }).array(name, maxCount)] on
    the file parts of a body, in the order they arrive.  A part beyond
    [limits.files] aborts; a part without a file name is passed over; a
    part under another field than [name], or beyond [maxCount] parts of
    that field, aborts; then the filter decides, then the size.  The
    first error is the one passed to [next], and the files stored so far
    are removed again.  [text] is the message of a MulterError.  The
    text fields are taken to be within the limits multer has by default,
    which are no part of this repository. *)
Fixpoint array (text : limit -> string) (files : nat) (name : string) (maxCount : nat)
    (parts : list part) {struct parts} : result (list file) :=
  match parts with
  | [] => Ok []
  | p :: parts' =>
      match files with
      | 0 => Throw {| exn_status := None; exn_message := text LIMIT_FILE_COUNT |}
      | S files' =>
          if String.eqb (part_originalname p) "" then
            array text files' name maxCount parts'
          else if negb (String.eqb (part_fieldname p) name) then
            Throw {| exn_status := None; exn_message := text LIMIT_UNEXPECTED_FILE |}
          else
            match maxCount with
            | 0 => Throw {| exn_status := None; exn_message := text LIMIT_UNEXPECTED_FILE |}
            | S maxCount' =>
                let* kept := fileFilter (part_mimetype p) in
                if part_too_large p then
                  Throw {| exn_status := None; exn_message := text LIMIT_FILE_SIZE |}
                else
                  let* stored := array text files' name maxCount' parts' in
                  Ok (if kept then stored_file p :: stored else stored)
            end
      end
  end.

(** The parts that carry a file name. *)
Definition named (p : part) : bool := negb (String.eqb (part_originalname p) "").

End Multer.

(** A part multer stores and hands to the handler of POST /upload: it
    has a file name, comes under the field [resumes], is a PDF by its
    type and is within the size limit. *)
Definition acceptable (p : Multer.part) : Prop :=
  Multer.part_originalname p <> "" /\ Multer.part_fieldname p = "resumes" /\
  Multer.part_mimetype p = "application/pdf" /\ Multer.part_too_large p = false.

(** A part multer does not refuse: it has no file name, or it is
    acceptable. *)
Definition passes (p : Multer.part) : Prop :=
  Multer.part_originalname p = "" \/ acceptable p.

Module Api.

(** The parts of a request the rank router looks at: the Authorization
    header, the text fields of a multipart body and its file parts, a
    JSON body, the [:id] of the path. *)
Record multipart : Type := {
  mp_authorization : option string;
  mp_jd : option string;
  mp_weights : option string;
  mp_files : list Multer.part
}.

(** [router.post("/upload", protect, tmpUpload.array("resumes", 20), handler)].
    The world is the one multer leaves when it is done with the files. *)
Definition post_upload (verify : string -> option oid) (text : Multer.limit -> string)
    (P : Platform) (env : request_env) (r : multipart) (w : world)
  : response * world :=
  match Auth.protect verify (mp_authorization r) with
  | Auth.Rejected resp => (resp, w)
  | Auth.Verified user =>
      match Multer.array text 20 "resumes" 20 (mp_files r) with
      | Throw e => (error_handler e, w)
      | Ok files =>
          Rank.upload P env
            {| up_user := user; up_jd := mp_jd r; up_weights := mp_weights r;
               up_files := Some files |} w
      end
  end.

(** [router.post("/stored", protect, handler)] *)
Definition post_stored (verify : string -> option oid) (P : Platform)
    (env : request_env) (authorization : option string) (json : obj) (w : world)
  : response * world :=
  match Auth.protect verify authorization with
  | Auth.Rejected resp => (resp, w)
  | Auth.Verified user => Rank.stored P env {| st_user := user; st_body := json |} w
  end.

(** [router.get("/history", protect, handler)] *)
Definition get_history (verify : string -> option oid) (P : Platform)
    (authorization : option string) (w : world) : response :=
  match Auth.protect verify authorization with
  | Auth.Rejected resp => resp
  | Auth.Verified user => Rank.history P user w
  end.

(** [router.get("/history/:id", protect, handler)] *)
Definition get_history_item (verify : string -> option oid) (P : Platform)
    (authorization : option string) (id : string) (w : world) : response :=
  match Auth.protect verify authorization with
  | Auth.Rejected resp => resp
  | Auth.Verified user => Rank.history_item P user id w
  end.

End Api.

(** A verifier that knows one token, the texts of multer's errors, and
    two file parts. *)
Module ApiDemo.

Definition verify (token : string) : option oid :=
  if String.eqb token "abc" then Some 7%N else None.

Definition limit_text (l : Multer.limit) : string :=
  match l with
  | Multer.LIMIT_FILE_COUNT => "Too many files"
  | Multer.LIMIT_FILE_SIZE => "File too large"
  | Multer.LIMIT_UNEXPECTED_FILE => "Unexpected field"
  end.

Definition pdf : Multer.part :=
  {| Multer.part_fieldname := "resumes";
     Multer.part_originalname := "alice.pdf";
     Multer.part_mimetype := "application/pdf";
     Multer.part_too_large := false;
     Multer.part_path := "tmp_rank/f1" |}.

Definition notes : Multer.part :=
  {| Multer.part_fieldname := "resumes";
     Multer.part_originalname := "notes.txt";
     Multer.part_mimetype := "text/plain";
     Multer.part_too_large := false;
     Multer.part_path := "tmp_rank/f2" |}.

(** A request with a valid token, no job description and a text file. *)
Definition notes_without_jd : Api.multipart :=
  {| Api.mp_authorization := Some "Bearer abc";
     Api.mp_jd := None; Api.mp_weights := None; Api.mp_files := [notes] |}.

(** A request with a valid token, an empty job description and a PDF. *)
Definition pdf_with_empty_jd : Api.multipart :=
  {| Api.mp_authorization := Some "Bearer abc";
     Api.mp_jd := Some ""; Api.mp_weights := None; Api.mp_files := [pdf] |}.

(** A request with a valid token, a job description and a text file. *)
Definition notes_with_jd : Api.multipart :=
  {| Api.mp_authorization := Some "Bearer abc";
     Api.mp_jd := Some "Go engineer"; Api.mp_weights := None; Api.mp_files := [notes] |}.

End ApiDemo.

(** ** Stored resumes (routes/resumes.js, models/Resume.js)

    The three routes of the resumes router after [protect] and multer, over
    a store of their own: the Resume collection, the uploads directory and
    the log of the calls made to the engine. *)

Module Resumes.

Inductive ml_call : Type :=
| Parse (path originalname resume_id : string)   (* POST /parse *)
| Forget (mlResumeId : value).                   (* DELETE /store/:id *)

Record Services : Type := {
  (** the engine behind [fetch] *)
  ml : ml_call -> fetch_outcome;
  (** Mongoose's cast of the nested path [parsed] for what the route hands
      over ([None] is [undefined]); the result is the stored [parsed] *)
  castParsed : option obj -> option obj
}.

Record store : Type := {
  rs_up : bool;                 (* is the database reachable *)
  rs_docs : list obj;           (* the Resume collection, oldest first *)
  rs_disk : gset string;        (* the paths present under uploads *)
  rs_calls : list ml_call       (* the calls made to the engine, oldest first *)
}.

(** [req.file] as the disk storage of multer fills it. *)
Record upload_file : Type := {
  uf_path : string;
  uf_filename : string;
  uf_originalname : string;
  uf_size : N
}.

Definition log_call (c : ml_call) (w : store) : store :=
  {| rs_up := rs_up w; rs_docs := rs_docs w; rs_disk := rs_disk w;
     rs_calls := rs_calls w ++ [c] |}.

(** [fs.unlink(p, () => {})] *)
Definition unlink (p : string) (w : store) : store :=
  {| rs_up := rs_up w; rs_docs := rs_docs w;
     rs_disk := snd (Fs.unlink p (rs_disk w)); rs_calls := rs_calls w |}.

Definition set_docs (l : list obj) (w : store) : store :=
  {| rs_up := rs_up w; rs_docs := l; rs_disk := rs_disk w; rs_calls := rs_calls w |}.

(** The value of [parsed] after the inner [try]: the body of a successful
    answer, and null when the call throws, when the status is not a
    success, or when the body is not JSON. *)
Definition parse_outcome (S : Services) (P : Platform) (c : ml_call) : value :=
  match ml S c with
  | FetchFailed => VNull
  | FetchResponse st text =>
      if res_ok st then
        match JSON_parse P text with
        | Some v => v
        | None => VNull
        end
      else VNull
  end.

(** The paths of [parsed] the route copies. *)
Definition parsed_paths : list string :=
  ["name"; "email"; "phone"; "skills"; "experience_years"; "education";
   "certifications"; "projects"].

(** [{ name: parsed.name, ..., projects: parsed.projects }], without the
    properties whose value is [undefined]. *)
Definition pick (parsed : value) : obj :=
  flat_map (fun k => match JS.member k parsed with
                     | Some v => [(k, v)]
                     | None => []
                     end) parsed_paths.

(** The argument of [Resume.create]. *)
Record input : Type := {
  in_owner : oid;
  in_filename : string;
  in_originalName : string;
  in_filePath : string;
  in_fileSize : N;
  in_mlResumeId : string;
  in_parsed : option obj;
  in_embeddingStored : bool
}.

(** The document [new Resume(input)] validates to: the three names are
    required, so none may be empty. *)
Definition build (S : Services) (env : request_env) (i : input) : option obj :=
  if String.eqb (in_filename i) "" || String.eqb (in_originalName i) ""
     || String.eqb (in_filePath i) "" then None
  else
    match castParsed S (in_parsed i) with
    | Some p =>
        Some [("_id", VOid (fresh_id env));
              ("owner", VOid (in_owner i));
              ("filename", VStr (in_filename i));
              ("originalName", VStr (in_originalName i));
              ("filePath", VStr (in_filePath i));
              ("fileSize", VNum (inject_Z (Z.of_N (in_fileSize i))));
              ("mlResumeId", VStr (in_mlResumeId i));
              ("parsed", VObj p);
              ("embeddingStored", VBool (in_embeddingStored i));
              ("createdAt", VDate (now env));
              ("updatedAt", VDate (now env));
              ("__v", VNum 0%Q)]
    | None => None
    end.

(** [Resume.create(input)] *)
Definition create (S : Services) (P : Platform) (env : request_env) (i : input)
    (w : store) : result obj * store :=
  match build S env i with
  | None => (Throw (raise P ValidationError), w)
  | Some d =>
      if negb (rs_up w) then (Throw (raise P MongoError), w)
      else if existsb (RankResult.has_id (fresh_id env)) (rs_docs w) then
        (Throw (raise P MongoError), w)
      else (Ok d, set_docs (rs_docs w ++ [d]) w)
  end.

(** [doc.parsed] *)
Definition parsed_of (d : obj) : value := default VNull (JS.obj_get "parsed" d).

(** POST /upload; [resumeId] is the value of [uuidv4()]. *)
Definition upload (S : Services) (P : Platform) (env : request_env) (resumeId : string)
    (user : oid) (file : option upload_file) (w : store) : response * store :=
  match file with
  | None => (res_error 400 "No file uploaded.", w)
  | Some f =>
      let call := Parse (uf_path f) (uf_originalname f) resumeId in
      let w := log_call call w in
      let parsed := parse_outcome S P call in
      match create S P env
              {| in_owner := user;
                 in_filename := uf_filename f;
                 in_originalName := uf_originalname f;
                 in_filePath := uf_path f;
                 in_fileSize := uf_size f;
                 in_mlResumeId := resumeId;
                 in_parsed := if JS.truthy parsed then Some (pick parsed) else None;
                 in_embeddingStored := JS.truthy_opt (JS.member "embedding_stored" parsed) |}
              w with
      | (Ok doc, w') =>
          ({| status := 201;
              body := VObj [("id", RankResult._id doc);
                            ("mlResumeId", VStr resumeId);
                            ("parsed", parsed_of doc)] |}, w')
      | (Throw e, w') => (error_handler e, unlink (uf_path f) w')
      end
  end.

(** [Resume.findOne({ _id, owner })] once the filter is cast. *)
Definition findOne (i owner : oid) (w : store) : option obj :=
  List.find (fun d => RankResult.has_id i d && RankResult.has_owner owner d) (rs_docs w).

(** [doc.deleteOne()]: the first document with the [_id] goes. *)
Fixpoint delete_one (i : oid) (l : list obj) : list obj :=
  match l with
  | [] => []
  | d :: l' => if RankResult.has_id i d then l' else d :: delete_one i l'
  end.

(** DELETE /:id *)
Definition remove (S : Services) (P : Platform) (user : oid) (id : string) (w : store)
  : response * store :=
  match castObjectId P id with
  | None => (error_handler (raise P CastError), w)
  | Some i =>
      if rs_up w then
        match findOne i user w with
        | None => (res_error 404 "Resume not found.", w)
        | Some doc =>
            match JS.obj_get "filePath" doc with
            | Some (VStr p) =>
                let w := unlink p w in
                let w :=
                  match JS.obj_get "mlResumeId" doc with
                  | Some m =>
                      if JS.truthy m then
                        match ml S (Forget m) with
                        | FetchFailed => log_call (Forget m) w
                        | FetchResponse _ _ => log_call (Forget m) w
                        end
                      else w
                  | None => w
                  end in
                (res_json (VObj [("deleted", RankResult._id doc)]),
                 set_docs (delete_one i (rs_docs w)) w)
            | _ => (error_handler (raise P TypeError), w)
            end
        end
      else (error_handler (raise P MongoError), w)
  end.


End Resumes.

(** The engine does not answer a parse call with a body the route can use. *)
Definition parse_fails (S : Resumes.Services) (P : Platform) (c : Resumes.ml_call) : Prop :=
  match Resumes.ml S c with
  | FetchFailed => True
  | FetchResponse st text => res_ok st = false \/ JSON_parse P text = None
  end.

Module ResumeDemo.

Definition parsed_text : string :=
  "{" +:+ Json.q "name" +:+ ":" +:+ Json.q "Alice" +:+ ","
      +:+ Json.q "skills" +:+ ":[" +:+ Json.q "go" +:+ "],"
      +:+ Json.q "embedding_stored" +:+ ":true}".

Definition services (up : bool) : Resumes.Services :=
  {| Resumes.ml := fun _ => if up then FetchResponse 200 parsed_text else FetchFailed;
     Resumes.castParsed := fun o => Some (default [] o) |}.

Definition empty_store : Resumes.store :=
  {| Resumes.rs_up := true; Resumes.rs_docs := [];
     Resumes.rs_disk := {[ "uploads/u1.pdf" ]}; Resumes.rs_calls := [] |}.

Definition alice : Resumes.upload_file :=
  {| Resumes.uf_path := "uploads/u1.pdf"; Resumes.uf_filename := "u1.pdf";
     Resumes.uf_originalname := "alice.pdf"; Resumes.uf_size := 51200%N |}.

End ResumeDemo.

(** ** The two forms that post resumes

    The submit handlers of static/app.js and of
    frontend/src/pages/Dashboard.jsx, up to the request they send.
    [trim] is [String.prototype.trim]; a file is known by its name. *)

Module StaticApp.

(** A file input of the page: the element may be missing, and so may its
    [files]. *)
Definition picker : Type := option (option (list string)).

(** [el?.files && el.files.length > 0] then [el.files[0]] *)
Definition first_file (el : picker) : list string :=
  match el with
  | Some (Some (f :: _)) => [f]
  | _ => []
  end.

Definition getSelectedResumeFiles (resume1El resume2El resume3El resume4El : picker)
  : list string :=
  flat_map first_file [resume1El; resume2El; resume3El; resume4El].

(** What the submit handler does before it waits: it shows an error, or
    it posts the form. *)
Inductive submission : Type :=
| ShowError (message : string)
| Post (jd : string) (resumes : list string).

Definition onSubmit (trim : string -> string) (jdValue : string)
    (resume1El resume2El resume3El resume4El : picker) : submission :=
  let jd := trim jdValue in
  let files := getSelectedResumeFiles resume1El resume2El resume3El resume4El in
  if String.eqb jd "" then ShowError "Please paste a job description."
  else if Nat.eqb (length files) 0 then ShowError "Please select at least 1 resume (PDF)."
  else if Nat.ltb 4 (length files) then ShowError "Please select at most 4 resumes."
  else Post jd files.

End StaticApp.

Module Dashboard.

(** The form [handleSubmit] sends to POST /api/rank/upload. *)
Record form : Type := {
  fd_jd : string;
  fd_weights : string;
  fd_resumes : list string
}.

Inductive submission : Type :=
| ShowError (message : string)
| Post (fd : form).





End Dashboard.

(** * Properties *)

(** ** Objects *)

Section Objects.

Implicit Types (k : string) (v : value) (o : obj).

Lemma obj_get_In k v o : JS.obj_get k o = Some v -> In (k, v) o.
Proof.
  induction o as [|[k' v'] o IH]; simpl; [discriminate|].
  destruct (String.eqb_spec k k') as [->|_].
  - intros [= ->]. now left.
  - intros H. right. now apply IH.
Qed.

Lemma obj_get_None_keys k o : JS.obj_get k o = None <-> ~ In k (JS.keys o).
Proof.
  induction o as [|[k' v'] o IH]; simpl; [tauto|].
  destruct (String.eqb_spec k k') as [->|Hne].
  - split; [discriminate|]. intros H. exfalso. apply H. now left.
  - rewrite IH. split.
    + intros H [E|E]; [congruence|tauto].
    + intros H E. apply H. now right.
Qed.

Lemma obj_get_set k k' v o :
  JS.obj_get k' (JS.obj_set k v o) =
    if String.eqb k' k then Some v else JS.obj_get k' o.
Proof.
  induction o as [|[k0 v0] o IH]; simpl.
  - now destruct (String.eqb k' k).
  - destruct (String.eqb_spec k k0) as [->|Hne]; simpl.
    + now destruct (String.eqb k' k0).
    + destruct (String.eqb_spec k' k0) as [->|Hne'].
      * destruct (String.eqb_spec k0 k); [congruence|reflexivity].
      * apply IH.
Qed.

Lemma obj_get_without k k' o :
  JS.obj_get k' (JS.obj_without k o) =
    if String.eqb k k' then None else JS.obj_get k' o.
Proof.
  unfold JS.obj_without.
  induction o as [|[k0 v0] o IH]; simpl.
  - now destruct (String.eqb k k').
  - destruct (String.eqb_spec k k0) as [->|Hne]; simpl.
    + rewrite IH. destruct (String.eqb_spec k0 k') as [->|Hne]; [reflexivity|].
      destruct (String.eqb_spec k' k0); [congruence|reflexivity].
    + rewrite IH. destruct (String.eqb_spec k' k0) as [->|Hne'].
      * destruct (String.eqb_spec k k0); [congruence|reflexivity].
      * reflexivity.
Qed.

(** Setting, one after the other, the keys of [l] to what [src] holds. *)
Lemma obj_get_assign_from (src l : obj) k : forall base,
  JS.obj_get k
    (fold_left (fun acc kv => match JS.obj_get (fst kv) src with
                              | Some x => JS.obj_set (fst kv) x acc
                              | None => acc
                              end) l base) =
    match JS.obj_get k src with
    | Some x => if existsb (String.eqb k) (JS.keys l) then Some x
                else JS.obj_get k base
    | None => JS.obj_get k base
    end.
Proof.
  induction l as [|[k0 v0] l IH]; intros base; simpl.
  - now destruct (JS.obj_get k src).
  - rewrite IH. destruct (JS.obj_get k src) as [x|] eqn:Hk.
    + destruct (String.eqb_spec k k0) as [->|Hne]; simpl.
      * rewrite Hk. rewrite obj_get_set, String.eqb_refl.
        now destruct (existsb _ _).
      * destruct (existsb _ _); [reflexivity|].
        destruct (JS.obj_get k0 src); [|reflexivity].
        rewrite obj_get_set. now destruct (String.eqb_spec k k0).
    + destruct (JS.obj_get k0 src) eqn:Hk0; [|reflexivity].
      rewrite obj_get_set.
      destruct (String.eqb_spec k k0); [congruence|reflexivity].
Qed.

(** What [{ ...base, ...props }] holds under [k]: the value of [props]
    when [props] has the key, the value of [base] otherwise. *)
Lemma obj_get_assign base props k :
  JS.obj_get k (JS.assign base props) =
    match JS.obj_get k props with
    | Some x => Some x
    | None => JS.obj_get k base
    end.
Proof.
  unfold JS.assign. rewrite obj_get_assign_from.
  destruct (JS.obj_get k props) as [x|] eqn:Hk; [|reflexivity].
  assert (Hin : In k (JS.keys props)).
  { destruct (in_dec string_dec k (JS.keys props)) as [H|H]; [exact H|].
    apply obj_get_None_keys in H. congruence. }
  assert (E : existsb (String.eqb k) (JS.keys props) = true).
  { apply existsb_exists. exists k. split; [exact Hin|apply String.eqb_refl]. }
  now rewrite E.
Qed.

End Objects.

(** ** What a request does to the world *)

Section Effects.

Variable P : Platform.

Lemma create_ok env i w saved w' :
  RankResult.create P env i w = (Ok saved, w') ->
  RankResult.build P env i = Some saved /\
  db_up w = true /\
  existsb (RankResult.has_id (fresh_id env)) (db w) = false /\
  w' = RankResult.insert saved w.
Proof.
  unfold RankResult.create. intros H.
  destruct (RankResult.build P env i) as [d|]; [|discriminate].
  destruct (db_up w); simpl in H; [|discriminate].
  destruct (existsb _ (db w)); [discriminate|].
  now inversion H.
Qed.

Lemma create_throw env i w e w' :
  RankResult.create P env i w = (Throw e, w') -> w' = w.
Proof.
  unfold RankResult.create. intros H.
  destruct (RankResult.build P env i) as [d|]; [|now inversion H].
  destruct (db_up w); simpl in H; [|now inversion H].
  destruct (existsb _ (db w)); [now inversion H|discriminate].
Qed.

Lemma upload_try_ok env user jd weights files w v w' :
  Rank.upload_try P env user jd weights files w = (Ok v, w') ->
  exists st text data clean ws saved,
    fetch P (Rank.upload_form jd weights files) = FetchResponse st text /\
    res_ok st = true /\
    JSON_parse P text = Some data /\
    Rank.cleanRankings P data = Ok clean /\
    given_weights P weights ws /\
    RankResult.create P env
      {| RankResult.in_owner := user;
         RankResult.in_jobDescription := VStr jd;
         RankResult.in_rankings := clean;
         RankResult.in_weights := ws |}
      (Rank.log_call (Rank.upload_form jd weights files) w) = (Ok saved, w') /\
    v = Rank.success_body saved data.
Proof.
  unfold Rank.upload_try, given_weights. fold (Rank.upload_form jd weights files).
  intros H.
  destruct (fetch P _) as [|st text]; [discriminate|].
  destruct (res_ok st) eqn:Hok; simpl in H; [|discriminate].
  destruct (JSON_parse P text) as [data|] eqn:Hdata; [|discriminate].
  destruct (Rank.cleanRankings P data) as [clean|] eqn:Hclean; [|discriminate].
  destruct (JS.truthy_text weights) as [t|] eqn:Ht.
  - destruct (JSON_parse P t) as [x|] eqn:Hx; [|discriminate].
    destruct (RankResult.create _ _ _ _) as [[saved|e] w1] eqn:Hc; [|discriminate].
    inversion H; subst. exists st, text, data, clean, (Some x), saved.
    repeat split; eauto.
  - destruct (RankResult.create _ _ _ _) as [[saved|e] w1] eqn:Hc; [|discriminate].
    inversion H; subst. exists st, text, data, clean, None, saved.
    repeat split; eauto.
Qed.

Lemma upload_try_throw env user jd weights files w e w' :
  Rank.upload_try P env user jd weights files w = (Throw e, w') ->
  w' = Rank.log_call (Rank.upload_form jd weights files) w.
Proof.
  unfold Rank.upload_try. fold (Rank.upload_form jd weights files). intros H.
  destruct (fetch P _) as [|st text]; [now inversion H|].
  destruct (res_ok st); simpl in H; [|now inversion H].
  destruct (JSON_parse P text) as [data|]; [|now inversion H].
  destruct (Rank.cleanRankings P data) as [clean|]; [|now inversion H].
  destruct (JS.truthy_text weights) as [t|].
  - destruct (JSON_parse P t) as [x|]; [|now inversion H].
    destruct (RankResult.create _ _ _ _) as [[saved|e'] w1] eqn:Hc; [discriminate|].
    apply create_throw in Hc. now inversion H; subst.
  - destruct (RankResult.create _ _ _ _) as [[saved|e'] w1] eqn:Hc; [discriminate|].
    apply create_throw in Hc. now inversion H; subst.
Qed.

Lemma stored_try_ok env user jd top_k w v w' :
  Rank.stored_try P env user jd top_k w = (Ok v, w') ->
  exists st text data clean saved,
    fetch P (RankStored jd top_k) = FetchResponse st text /\
    res_ok st = true /\
    JSON_parse P text = Some data /\
    Rank.cleanRankings P data = Ok clean /\
    RankResult.create P env
      {| RankResult.in_owner := user;
         RankResult.in_jobDescription := jd;
         RankResult.in_rankings := clean;
         RankResult.in_weights := None |}
      (Rank.log_call (RankStored jd top_k) w) = (Ok saved, w') /\
    v = Rank.success_body saved data.
Proof.
  unfold Rank.stored_try. intros H.
  destruct (Rank.sendable jd); cbn [negb] in H; [|discriminate].
  destruct (fetch P _) as [|st text]; [discriminate|].
  destruct (res_ok st) eqn:Hok; simpl in H; [|discriminate].
  destruct (JSON_parse P text) as [data|] eqn:Hdata; [|discriminate].
  destruct (Rank.cleanRankings P data) as [clean|] eqn:Hclean; [|discriminate].
  destruct (RankResult.create _ _ _ _) as [[saved|e] w1] eqn:Hc; [|discriminate].
  inversion H; subst. exists st, text, data, clean, saved. repeat split; eauto.
Qed.

Lemma stored_try_ok_sendable env user jd top_k w v w' :
  Rank.stored_try P env user jd top_k w = (Ok v, w') -> Rank.sendable jd = true.
Proof.
  unfold Rank.stored_try. destruct (Rank.sendable jd); [reflexivity|discriminate].
Qed.

Lemma stored_try_throw env user jd top_k w e w' :
  Rank.stored_try P env user jd top_k w = (Throw e, w') ->
  w' = if Rank.sendable jd then Rank.log_call (RankStored jd top_k) w else w.
Proof.
  unfold Rank.stored_try. intros H.
  destruct (Rank.sendable jd); cbn [negb] in H; [|now inversion H].
  destruct (fetch P _) as [|st text]; [now inversion H|].
  destruct (res_ok st); simpl in H; [|now inversion H].
  destruct (JSON_parse P text) as [data|]; [|now inversion H].
  destruct (Rank.cleanRankings P data) as [clean|]; [|now inversion H].
  destruct (RankResult.create _ _ _ _) as [[saved|e'] w1] eqn:Hc; [discriminate|].
  apply create_throw in Hc. now inversion H; subst.
Qed.

(** Unlinking touches the disk only, and leaves none of the paths. *)
Lemma unlink_each_world files : forall w,
  db_up (Rank.unlink_each files w) = db_up w /\
  db (Rank.unlink_each files w) = db w /\
  engine_calls (Rank.unlink_each files w) = engine_calls w /\
  disk (Rank.unlink_each files w) = disk w ∖ list_to_set (List.map path files).
Proof.
  unfold Rank.unlink_each.
  induction files as [|f files IH]; intros w; simpl.
  - repeat split. set_solver.
  - destruct (IH (Rank.set_disk (snd (Fs.unlink (path f) (disk w))) w))
      as (Hup & Hdb & Hcalls & Hdisk).
    rewrite Hup, Hdb, Hcalls, Hdisk. simpl. repeat split.
    unfold Fs.unlink. destruct (decide (path f ∈ disk w)); simpl; set_solver.
Qed.

(** The error handler never answers with a success status for an
    exception without a status, nor for one whose status is not a
    success status. *)
Lemma error_handler_status e :
  no_success_status e ->
  exists s msg, error_handler e = res_error s msg /\ res_ok s = false.
Proof.
  unfold error_handler, no_success_status. intros H. destruct (exn_status e) as [s|].
  - destruct (Nat.eqb s 0); eexists _, _; split; eauto.
  - eexists _, _; split; eauto.
Qed.

End Effects.

(** The handler of POST /upload answers 400 to a request without a job
    description (missing or empty) or without any file; it calls no
    engine and creates no session. *)
Lemma handler_rejects_invalid_input (P : Platform) (env : request_env)
    (req : upload_request) (w : world) :
  JS.truthy_text (up_jd req) = None \/ default [] (up_files req) = [] ->
  exists msg,
    fst (Rank.upload P env req w) = res_error 400 msg /\
    engine_calls (snd (Rank.upload P env req w)) = engine_calls w /\
    db (snd (Rank.upload P env req w)) = db w.
Proof.
  intros H. unfold Rank.upload.
  destruct (JS.truthy_text (up_jd req)) as [jd|] eqn:Hjd.
  - destruct H as [H|H]; [discriminate|]. rewrite H. simpl. eauto.
  - simpl. destruct (unlink_each_world (default [] (up_files req)) w)
      as (_ & Hdb & Hcalls & _). eauto.
Qed.

(** ** Temporary files *)

Section Disk.

Variable P : Platform.

Lemma create_set_disk env i d w :
  RankResult.create P env i (Rank.set_disk d w) =
    (fst (RankResult.create P env i w), Rank.set_disk d (snd (RankResult.create P env i w))).
Proof.
  unfold RankResult.create. simpl.
  destruct (RankResult.build P env i); [|reflexivity].
  destruct (db_up w); simpl; [|reflexivity].
  destruct (existsb _ (db w)); reflexivity.
Qed.

(** The [try] block of POST /upload neither reads nor writes the disk. *)
Lemma upload_try_set_disk env user jd weights files d w :
  Rank.upload_try P env user jd weights files (Rank.set_disk d w) =
    (fst (Rank.upload_try P env user jd weights files w),
     Rank.set_disk d (snd (Rank.upload_try P env user jd weights files w))).
Proof.
  unfold Rank.upload_try.
  change (Rank.log_call ?f (Rank.set_disk d w)) with (Rank.set_disk d (Rank.log_call f w)).
  destruct (fetch P _) as [|st text]; [reflexivity|].
  destruct (res_ok st); simpl; [|reflexivity].
  destruct (JSON_parse P text) as [data|]; [|reflexivity].
  destruct (Rank.cleanRankings P data) as [clean|]; [|reflexivity].
  destruct (JS.truthy_text weights) as [t|].
  - destruct (JSON_parse P t) as [x|]; [|reflexivity].
    rewrite create_set_disk.
    destruct (RankResult.create _ _ _ _) as [[saved|e] w1]; reflexivity.
  - rewrite create_set_disk.
    destruct (RankResult.create _ _ _ _) as [[saved|e] w1]; reflexivity.
Qed.

Lemma upload_try_disk env user jd weights files w :
  disk (snd (Rank.upload_try P env user jd weights files w)) = disk w.
Proof.
  destruct (Rank.upload_try P env user jd weights files w) as [[v|e] w'] eqn:H; simpl.
  - apply upload_try_ok in H as (st & text & data & clean & ws & saved & _ & _ & _ & _ & _ & Hc & _).
    apply create_ok in Hc as (_ & _ & _ & ->). reflexivity.
  - apply upload_try_throw in H as ->. reflexivity.
Qed.

End Disk.

(** C3: whatever way POST /upload ends, the disk afterwards is the disk
    before without the paths of the request's files, so none of them is
    left; and the response is the same whatever the disk holds, so a
    deletion that fails (the callback of [unlink] drops its error) does
    not show in it. *)
Theorem upload_leaves_no_temporary_file (P : Platform) (env : request_env)
    (req : upload_request) (w : world) :
  disk (snd (Rank.upload P env req w))
    = disk w ∖ list_to_set (List.map path (default [] (up_files req))) /\
  (forall f, In f (default [] (up_files req)) ->
             path f ∉ disk (snd (Rank.upload P env req w))) /\
  (forall d, fst (Rank.upload P env req (Rank.set_disk d w))
             = fst (Rank.upload P env req w)).
Proof.
  assert (Hdisk : disk (snd (Rank.upload P env req w))
    = disk w ∖ list_to_set (List.map path (default [] (up_files req)))).
  { unfold Rank.upload.
    destruct (JS.truthy_text (up_jd req)) as [jd|]; cbn [snd].
    - destruct (Nat.eqb (length (default [] (up_files req))) 0) eqn:Hlen.
      + apply Nat.eqb_eq in Hlen.
        destruct (default [] (up_files req)); [|discriminate]. simpl. set_solver.
      + pose proof (upload_try_disk P env (up_user req) jd (up_weights req)
                      (default [] (up_files req)) w) as Hd.
        destruct (Rank.upload_try _ _ _ _ _ _ _) as [r w']. cbn [snd] in *.
        destruct (unlink_each_world (default [] (up_files req)) w') as (_ & _ & _ & ->).
        now rewrite Hd.
    - now destruct (unlink_each_world (default [] (up_files req)) w) as (_ & _ & _ & ->). }
  split; [exact Hdisk|]. split.
  - intros f Hf. rewrite Hdisk.
    assert (path f ∈ (list_to_set (List.map path (default [] (up_files req))) : gset string)).
    { apply elem_of_list_to_set, list_elem_of_In, in_map, Hf. }
    set_solver.
  - intros d. unfold Rank.upload.
    destruct (JS.truthy_text (up_jd req)) as [jd|]; simpl; [|reflexivity].
    destruct (Nat.eqb _ 0); [reflexivity|].
    rewrite upload_try_set_disk.
    now destruct (Rank.upload_try _ _ _ _ _ _ _) as [r w'].
Qed.

(** ** Reading one session *)

Section Detail.

Variable P : Platform.

Lemma find_none_iff {A : Type} (f : A -> bool) (l : list A) :
  List.find f l = None <-> (forall x, In x l -> f x = false).
Proof.
  split; [apply find_none|].
  induction l as [|a l IH]; simpl; [reflexivity|]. intros H.
  rewrite (H a (or_introl eq_refl)). apply IH. intros x Hx. apply H. now right.
Qed.

Lemma findOne_None i user w :
  Query.findOne i user w = None <-> no_session_of i user w.
Proof.
  unfold Query.findOne, no_session_of. rewrite find_none_iff.
  split; intros H d Hd.
  - intros Hi. specialize (H d Hd). now rewrite Hi in H.
  - destruct (RankResult.has_id i d) eqn:Hi; [|reflexivity]. simpl. now apply H.
Qed.

Lemma history_item_not_found user id i w :
  castObjectId P id = Some i -> db_up w = true -> no_session_of i user w ->
  Rank.history_item P user id w = res_error 404 "Not found.".
Proof.
  intros Hid Hup Hnone. unfold Rank.history_item. rewrite Hid, Hup.
  apply findOne_None in Hnone. now rewrite Hnone.
Qed.

Lemma history_item_404 user id w :
  status (Rank.history_item P user id w) = 404 ->
  exists i, castObjectId P id = Some i /\ db_up w = true /\ no_session_of i user w.
Proof.
  unfold Rank.history_item.
  destruct (castObjectId P id) as [i|]; [|discriminate].
  destruct (db_up w); [|discriminate].
  destruct (Query.findOne i user w) eqn:Hf; [discriminate|].
  intros _. exists i. repeat split. now apply findOne_None.
Qed.

End Detail.

(** C4: a session of another owner is answered exactly as a session that
    does not exist.  When every session under the requested id belongs to
    someone else, GET /history/:id answers 404 "Not found."; and that is
    also its answer in a world where no session has the id. *)
Theorem foreign_session_is_not_found (P : Platform) (user : oid) (id : string)
    (i : oid) (w w' : world) :
  castObjectId P id = Some i ->
  db_up w = true -> db_up w' = true ->
  (exists d, In d (db w) /\ RankResult.has_id i d = true) ->
  (forall d, In d (db w) -> RankResult.has_id i d = true ->
             RankResult.has_owner user d = false) ->
  (forall d, In d (db w') -> RankResult.has_id i d = false) ->
  Rank.history_item P user id w = res_error 404 "Not found." /\
  Rank.history_item P user id w' = Rank.history_item P user id w.
Proof.
  intros Hid Hup Hup' _ Hforeign Habsent.
  assert (H : Rank.history_item P user id w = res_error 404 "Not found.")
    by now apply (history_item_not_found P user id i).
  split; [exact H|]. rewrite H.
  apply (history_item_not_found P user id i); auto.
  intros d Hd Hi. rewrite (Habsent d Hd) in Hi. discriminate.
Qed.

Lemma foreign_session_is_not_found_witness :
  Rank.history_item (Demo.platform Demo.engine_up) 8%N "000000000000000000001000"
    (snd (Rank.upload (Demo.platform Demo.engine_up) Demo.env1
            (Demo.upload_with None) Demo.empty_world))
    = res_error 404 "Not found." /\
  Rank.history_item (Demo.platform Demo.engine_up) 8%N "000000000000000000001000"
    Demo.empty_world
    = Rank.history_item (Demo.platform Demo.engine_up) 8%N "000000000000000000001000"
        (snd (Rank.upload (Demo.platform Demo.engine_up) Demo.env1
                (Demo.upload_with None) Demo.empty_world)).
Proof.
  apply (foreign_session_is_not_found (Demo.platform Demo.engine_up) 8%N
           "000000000000000000001000" 4096%N).
  - reflexivity.
  - reflexivity.
  - reflexivity.
  - eexists. split; [left; reflexivity|reflexivity].
  - intros d [<-|[]]. reflexivity.
  - intros d [].
Defined.

(** C10: an id the persistence layer cannot cast makes the lookup throw,
    and the error handler answers 500, not 404; the 404 of this route is
    only ever the answer to an id that casts and that no session of the
    requester carries. *)
Theorem malformed_id_is_server_error (P : Platform) (user : oid) (id : string)
    (w : world) :
  castObjectId P id = None ->
  Rank.history_item P user id w = error_handler (raise P CastError) /\
  status (Rank.history_item P user id w) = 500 /\
  (forall id', status (Rank.history_item P user id' w) = 404 ->
     exists i, castObjectId P id' = Some i /\ db_up w = true /\
               forall d, In d (db w) -> RankResult.has_id i d = true ->
                         RankResult.has_owner user d = false).
Proof.
  intros Hid. unfold Rank.history_item at 1 2. rewrite Hid.
  repeat split. intros id'. apply history_item_404.
Qed.

Lemma malformed_id_is_server_error_witness :
  Rank.history_item (Demo.platform Demo.engine_up) 7%N "not-an-id" Demo.empty_world
    = error_handler (raise (Demo.platform Demo.engine_up) CastError) /\
  status (Rank.history_item (Demo.platform Demo.engine_up) 7%N "not-an-id" Demo.empty_world)
    = 500 /\
  (forall id', status (Rank.history_item (Demo.platform Demo.engine_up) 7%N id'
                         Demo.empty_world) = 404 ->
     exists i, castObjectId (Demo.platform Demo.engine_up) id' = Some i /\
               db_up Demo.empty_world = true /\
               forall d, In d (db Demo.empty_world) -> RankResult.has_id i d = true ->
                         RankResult.has_owner 7%N d = false).
Proof.
  apply (malformed_id_is_server_error (Demo.platform Demo.engine_up) 7%N "not-an-id"
           Demo.empty_world).
  reflexivity.
Defined.

(** ** Successful submissions *)

Section Success.

Variable P : Platform.

Lemma error_handler_not_200 e : no_success_status e -> status (error_handler e) <> 200.
Proof.
  intros H. destruct (error_handler_status e H) as (s & msg & -> & Hs).
  simpl. intros ->. discriminate.
Qed.

Lemma create_throw_status env i w e w' :
  RankResult.create P env i w = (Throw e, w') -> no_success_status e.
Proof.
  unfold RankResult.create. intros H.
  destruct (RankResult.build P env i) as [d|]; [|now inversion H].
  destruct (db_up w); simpl in H; [|now inversion H].
  destruct (existsb _ (db w)); [now inversion H|discriminate].
Qed.

Lemma cleanRankings_throw_status data e :
  Rank.cleanRankings P data = Throw e -> exn_status e = None.
Proof.
  assert (Hmap : forall l e, map_result (Rank.strip_resume P) l = Throw e ->
                             exn_status e = None).
  { induction l as [|r l IH]; simpl; intros e0 H; [discriminate|].
    destruct r; simpl in H; try (now inversion H);
      destruct (map_result (Rank.strip_resume P) l) eqn:Hl; simpl in H;
      try discriminate; inversion H; subst; now apply IH. }
  unfold Rank.cleanRankings. intros H.
  destruct data; try (now inversion H);
    repeat (case_match; try (now inversion H); eauto).
Qed.

Lemma upload_try_throw_status env user jd weights files w e w' :
  Rank.upload_try P env user jd weights files w = (Throw e, w') -> no_success_status e.
Proof.
  unfold Rank.upload_try, no_success_status. intros H.
  destruct (fetch P _) as [|st text]; [now inversion H|].
  destruct (res_ok st) eqn:Hok; simpl in H; [|inversion H; subst; exact Hok].
  destruct (JSON_parse P text) as [data|]; [|now inversion H].
  destruct (Rank.cleanRankings P data) as [clean|e0] eqn:Hclean;
    [|inversion H; subst; now rewrite (cleanRankings_throw_status _ _ Hclean)].
  destruct (JS.truthy_text weights) as [t|].
  - destruct (JSON_parse P t) as [x|]; [|now inversion H].
    destruct (RankResult.create _ _ _ _) as [[saved|e'] w1] eqn:Hc; [discriminate|].
    inversion H; subst. exact (create_throw_status _ _ _ _ _ Hc).
  - destruct (RankResult.create _ _ _ _) as [[saved|e'] w1] eqn:Hc; [discriminate|].
    inversion H; subst. exact (create_throw_status _ _ _ _ _ Hc).
Qed.

Lemma stored_try_throw_status env user jd top_k w e w' :
  Rank.stored_try P env user jd top_k w = (Throw e, w') -> no_success_status e.
Proof.
  unfold Rank.stored_try, no_success_status. intros H.
  destruct (Rank.sendable jd); cbn [negb] in H; [|now inversion H].
  destruct (fetch P _) as [|st text]; [now inversion H|].
  destruct (res_ok st) eqn:Hok; simpl in H; [|now inversion H].
  destruct (JSON_parse P text) as [data|]; [|now inversion H].
  destruct (Rank.cleanRankings P data) as [clean|e0] eqn:Hclean;
    [|inversion H; subst; now rewrite (cleanRankings_throw_status _ _ Hclean)].
  destruct (RankResult.create _ _ _ _) as [[saved|e'] w1] eqn:Hc; [discriminate|].
  inversion H; subst. exact (create_throw_status _ _ _ _ _ Hc).
Qed.

Lemma upload_run env req w jd :
  JS.truthy_text (up_jd req) = Some jd ->
  Nat.eqb (length (default [] (up_files req))) 0 = false ->
  Rank.upload P env req w =
    (match fst (Rank.upload_try P env (up_user req) jd (up_weights req)
                  (default [] (up_files req)) w) with
     | Ok v => res_json v
     | Throw e => error_handler e
     end,
     Rank.unlink_each (default [] (up_files req))
       (snd (Rank.upload_try P env (up_user req) jd (up_weights req)
               (default [] (up_files req)) w))).
Proof.
  intros Hjd Hlen. unfold Rank.upload. rewrite Hjd, Hlen.
  now destruct (Rank.upload_try _ _ _ _ _ _ _).
Qed.

Lemma stored_run env req w j :
  JS.obj_get "jd" (st_body req) = Some j -> JS.truthy j = true ->
  Rank.stored P env req w =
    (match fst (Rank.stored_try P env (st_user req) j
                  (default (VNum 20%Q) (JS.obj_get "top_k" (st_body req))) w) with
     | Ok v => res_json v
     | Throw e => error_handler e
     end,
     snd (Rank.stored_try P env (st_user req) j
            (default (VNum 20%Q) (JS.obj_get "top_k" (st_body req))) w)).
Proof.
  intros Hjd Ht. unfold Rank.stored. rewrite Hjd, Ht.
  now destruct (Rank.stored_try _ _ _ _ _ _).
Qed.

Lemma submit_success env s w :
  status (fst (submit P env s w)) = 200 ->
  exists data clean ws saved, succeeded P env s w data clean ws saved.
Proof.
  destruct s as [req|req]; intros Hst; simpl in Hst.
  - destruct (JS.truthy_text (up_jd req)) as [jd|] eqn:Hjd;
      [|unfold Rank.upload in Hst; rewrite Hjd in Hst; discriminate].
    destruct (Nat.eqb (length (default [] (up_files req))) 0) eqn:Hlen;
      [unfold Rank.upload in Hst; rewrite Hjd, Hlen in Hst; discriminate|].
    pose proof (upload_run env req w jd Hjd Hlen) as Hrun. rewrite Hrun in Hst.
    destruct (Rank.upload_try _ _ _ _ _ _ _) as [[v|e] w'] eqn:Htry; cbn [fst snd] in *.
    + apply upload_try_ok in Htry
        as (st & text & data & clean & ws & saved & Hf & Hok & Hd & Hc & Hw & Hcr & ->).
      apply create_ok in Hcr as (Hb & Hup & Hfresh & ->).
      destruct (unlink_each_world (default [] (up_files req))
                  (RankResult.insert saved
                     (Rank.log_call (Rank.upload_form jd (up_weights req)
                                       (default [] (up_files req))) w)))
        as (Hup' & Hdb' & _).
      exists data, clean, ws, saved.
      split; simpl; try rewrite Hrun; try rewrite Hjd; try rewrite Hlen;
        cbn [fst snd option_map]; eauto 10.
    + exfalso. revert Hst. apply error_handler_not_200.
      exact (upload_try_throw_status _ _ _ _ _ _ _ _ Htry).
  - destruct (JS.obj_get "jd" (st_body req)) as [j|] eqn:Hjd;
      [|unfold Rank.stored in Hst; rewrite Hjd in Hst; discriminate].
    destruct (JS.truthy j) eqn:Ht;
      [|unfold Rank.stored in Hst; rewrite Hjd, Ht in Hst; discriminate].
    pose proof (stored_run env req w j Hjd Ht) as Hrun. rewrite Hrun in Hst.
    destruct (Rank.stored_try _ _ _ _ _ _) as [[v|e] w'] eqn:Htry; cbn [fst snd] in *.
    + pose proof (stored_try_ok_sendable _ _ _ _ _ _ _ _ Htry) as Hsend.
      apply stored_try_ok in Htry
        as (st & text & data & clean & saved & Hf & Hok & Hd & Hc & Hcr & ->).
      apply create_ok in Hcr as (Hb & Hup & Hfresh & ->).
      exists data, clean, None, saved.
      split; simpl; try rewrite Hrun; try rewrite Hjd; try rewrite Ht;
        try rewrite Hsend; cbn [fst snd andb]; eauto 10.
    + exfalso. revert Hst. apply error_handler_not_200.
      exact (stored_try_throw_status _ _ _ _ _ _ _ Htry).
Qed.




(** Conversely, a submission whose engine call, normalization, casts and
    insert all go through is answered 200 with the envelope. *)
Lemma submit_succeeds env s w call st text data clean ws jd saved :
  engine_call_of s = Some call ->
  fetch P call = FetchResponse st text ->
  res_ok st = true ->
  JSON_parse P text = Some data ->
  Rank.cleanRankings P data = Ok clean ->
  submitted_weights P s ws ->
  submitted_jd s = Some jd ->
  RankResult.build P env
    {| RankResult.in_owner := submitter s;
       RankResult.in_jobDescription := jd;
       RankResult.in_rankings := clean;
       RankResult.in_weights := ws |} = Some saved ->
  db_up w = true ->
  existsb (RankResult.has_id (fresh_id env)) (db w) = false ->
  fst (submit P env s w) = res_json (Rank.success_body saved data).
Proof.
  intros Hcall Hf Hok Hd Hc Hw Hjd Hb Hup Hfresh.
  destruct s as [req|req]; simpl in *.
  - destruct (JS.truthy_text (up_jd req)) as [jd0|] eqn:Hjd0; [|discriminate].
    destruct (Nat.eqb (length (default [] (up_files req))) 0) eqn:Hlen; [discriminate|].
    injection Hcall as <-. injection Hjd as <-.
    rewrite (upload_run env req w jd0 Hjd0 Hlen). cbn [fst].
    unfold Rank.upload_try.
    fold (Rank.upload_form jd0 (up_weights req) (default [] (up_files req))).
    rewrite Hf, Hok. cbn [negb]. rewrite Hd, Hc.
    unfold given_weights in Hw.
    destruct (JS.truthy_text (up_weights req)) as [t|].
    + destruct Hw as (v & -> & ->).
      unfold RankResult.create. rewrite Hb. cbn [db_up db Rank.log_call].
      now rewrite Hup, Hfresh.
    + subst ws. unfold RankResult.create. rewrite Hb. cbn [db_up db Rank.log_call].
      now rewrite Hup, Hfresh.
  - destruct (JS.obj_get "jd" (st_body req)) as [j|] eqn:Hj; [|discriminate].
    destruct (JS.truthy j) eqn:Ht; [|discriminate].
    destruct (Rank.sendable j) eqn:Hsend; [|discriminate].
    injection Hcall as <-. injection Hjd as <-. subst ws.
    rewrite (stored_run env req w j Hj Ht). cbn [fst].
    unfold Rank.stored_try. rewrite Hsend, Hf, Hok. cbn [negb]. rewrite Hd, Hc.
    unfold RankResult.create. rewrite Hb. cbn [db_up db Rank.log_call].
    now rewrite Hup, Hfresh.
Qed.

End Success.




(** ** What is returned and what is stored *)

Section Returned.

Variable P : Platform.

Lemma strip_resume_normalized r item :
  Rank.strip_resume P r = Ok item -> normalized r item.
Proof.
  unfold Rank.strip_resume, normalized. intros H.
  assert (Hr : r <> VNull) by (intros ->; discriminate).
  assert (item = JS.obj_without "resume" (JS.own_props r))
    by (destruct r; congruence).
  subst item. split; [exact Hr|]. split.
  - rewrite obj_get_without. now rewrite String.eqb_refl.
  - intros k Hk. rewrite obj_get_without.
    destruct (String.eqb_spec "resume" k); [congruence|reflexivity].
Qed.

Lemma map_strip_resume l : forall clean,
  map_result (Rank.strip_resume P) l = Ok clean -> Forall2 normalized l clean.
Proof.
  induction l as [|r l IH]; simpl; intros clean H.
  - injection H as <-. constructor.
  - destruct (Rank.strip_resume P r) as [item|] eqn:Hr; [|discriminate]. simpl in H.
    destruct (map_result (Rank.strip_resume P) l) as [items|] eqn:Hl; [|discriminate].
    injection H as <-. constructor; [now apply strip_resume_normalized|now apply IH].
Qed.

(** [cleanRankings] normalizes the records of the envelope, in order. *)
Lemma cleanRankings_normalized data clean :
  Rank.cleanRankings P data = Ok clean -> Forall2 normalized (engine_records data) clean.
Proof.
  unfold Rank.cleanRankings, engine_records. intros H.
  assert (Hd : data <> VNull) by (intros ->; discriminate).
  assert (H' : match (if JS.truthy_opt (JS.member "rankings" data)
                      then default (VArr []) (JS.member "rankings" data) else VArr []) with
               | VArr l => map_result (Rank.strip_resume P) l
               | _ => Throw (raise P TypeError)
               end = Ok clean) by (destruct data; congruence).
  clear H. destruct (JS.member "rankings" data) as [r|]; simpl in H'.
  - destruct (JS.truthy r) eqn:Ht; simpl in H'.
    + destruct r; try discriminate. now apply map_strip_resume.
    + injection H' as <-. destruct r; try constructor. discriminate.
  - injection H' as <-. constructor.
Qed.

Lemma build_Some env i saved :
  RankResult.build P env i = Some saved ->
  exists jd items ws,
    RankResult.cast_jobDescription P (RankResult.in_jobDescription i) = Some jd /\
    RankResult.cast_rankings P (RankResult.in_rankings i) = Some items /\
    RankResult.cast_weights P (RankResult.in_weights i) = Some ws /\
    saved = ([("_id", VOid (fresh_id env));
              ("owner", VOid (RankResult.in_owner i));
              ("jobDescription", VStr jd);
              ("rankings", VArr items)]
             ++ RankResult.weights_path ws
             ++ [("createdAt", VDate (now env));
                 ("updatedAt", VDate (now env));
                 ("__v", VNum 0%Q)])%list.
Proof.
  unfold RankResult.build. intros H.
  destruct (RankResult.cast_jobDescription P _) as [jd|]; [|discriminate].
  destruct (RankResult.cast_rankings P _) as [items|]; [|discriminate].
  destruct (RankResult.cast_weights P _) as [ws|]; [|discriminate].
  injection H as <-. eauto 10.
Qed.

End Returned.

(** C1, as the routes have it: the body of a successful response, on
    either path, is the engine's envelope with [resultId] added, so its
    rankings are the engine's records as they came, [resume] included.
    The normalized records, without [resume] and with every other property
    as the engine sent it, are what the route hands to [create], and their
    casts are the rankings of the stored session. *)
Theorem response_returns_engine_rankings (P : Platform) (env : request_env)
    (s : submission) (w : world) :
  status (fst (submit P env s w)) = 200 ->
  exists data clean saved fields,
    (exists call st text,
        engine_call_of s = Some call /\ fetch P call = FetchResponse st text /\
        JSON_parse P text = Some data) /\
    body (fst (submit P env s w)) = VObj fields /\
    (forall k, k <> "resultId" ->
               JS.obj_get k fields = JS.obj_get k (JS.own_props data)) /\
    Rank.cleanRankings P data = Ok clean /\
    Forall2 normalized (engine_records data) clean /\
    (exists items, RankResult.cast_rankings P clean = Some items /\
                   JS.obj_get "rankings" saved = Some (VArr items)) /\
    In saved (db (snd (submit P env s w))).
Proof.
  intros Hst. destruct (submit_success P env s w Hst) as (data & clean & ws & saved & H).
  destruct H as [(call & st & text & Hcall & Hf & _ & Hd) Hclean _ (jd & _ & Hb) _ Hresp Hdb _].
  exists data, clean, saved, (JS.assign [("resultId", RankResult._id saved)] (JS.own_props data)).
  split; [eauto 10|]. split; [now rewrite Hresp|]. split.
  { intros k Hk. rewrite obj_get_assign.
    destruct (JS.obj_get k (JS.own_props data)); [reflexivity|]. simpl.
    destruct (String.eqb_spec k "resultId"); [congruence|reflexivity]. }
  split; [exact Hclean|]. split; [now apply (cleanRankings_normalized P)|]. split.
  - apply build_Some in Hb as (jd' & items & ws' & _ & Hitems & _ & ->).
    exists items. split; [exact Hitems|reflexivity].
  - rewrite Hdb. apply in_or_app. right. now left.
Qed.

Lemma response_returns_engine_rankings_witness :
  exists data clean saved fields,
    (exists call st text,
        engine_call_of (Upload (Demo.upload_with None)) = Some call /\
        fetch Demo.up call = FetchResponse st text /\
        JSON_parse Demo.up text = Some data) /\
    body (fst (submit Demo.up Demo.env1 (Upload (Demo.upload_with None)) Demo.empty_world))
      = VObj fields /\
    (forall k, k <> "resultId" ->
               JS.obj_get k fields = JS.obj_get k (JS.own_props data)) /\
    Rank.cleanRankings Demo.up data = Ok clean /\
    Forall2 normalized (engine_records data) clean /\
    (exists items, RankResult.cast_rankings Demo.up clean = Some items /\
                   JS.obj_get "rankings" saved = Some (VArr items)) /\
    In saved (db (snd (submit Demo.up Demo.env1 (Upload (Demo.upload_with None))
                         Demo.empty_world))).
Proof.
  apply (response_returns_engine_rankings Demo.up Demo.env1
           (Upload (Demo.upload_with None)) Demo.empty_world).
  reflexivity.
Defined.

(** C1, as the claim has it, fails: the record this upload gets back still
    has its [resume]. *)
Lemma response_rankings_keep_resume :
  status (fst (submit Demo.up Demo.env1 (Upload (Demo.upload_with None))
                 Demo.empty_world)) = 200 /\
  exists fields returned,
    body (fst (submit Demo.up Demo.env1 (Upload (Demo.upload_with None))
                 Demo.empty_world)) = VObj fields /\
    JS.obj_get "rankings" fields = Some (VArr returned) /\
    ~ Forall resume_removed returned.
Proof.
  split; [reflexivity|]. eexists _, _. split; [reflexivity|]. split; [reflexivity|].
  intros H. inversion H as [|r l Hr _]; subst. discriminate Hr.
Qed.

(** ** Weights *)

Section Weights.

Variable P : Platform.

Lemma cast_weight_spec given k d p :
  RankResult.cast_weight P given (k, d) = Some p ->
  fst p = k /\
  (JS.obj_get k given = None -> snd p = VNum d) /\
  (forall q, JS.obj_get k given = Some (VNum q) -> snd p = VNum q).
Proof.
  unfold RankResult.cast_weight. simpl. intros H.
  destruct (JS.obj_get k given) as [v|].
  - destruct v; try (destruct (castNumber_other P _); [|discriminate]);
      injection H as <-; simpl; repeat split; try discriminate; congruence.
  - injection H as <-. simpl. repeat split; congruence.
Qed.

Lemma cast_weight_paths_get given kds : forall ws,
  RankResult.cast_weight_paths P given kds = Some ws ->
  List.NoDup (List.map fst kds) ->
  forall k d, In (k, d) kds ->
    exists p, RankResult.cast_weight P given (k, d) = Some p /\
              JS.obj_get k ws = Some (snd p).
Proof.
  induction kds as [|[k0 d0] kds IH]; simpl; intros ws H Hnd k d Hin; [contradiction|].
  destruct (RankResult.cast_weight P given (k0, d0)) as [p|] eqn:Hp; [|discriminate].
  destruct (RankResult.cast_weight_paths P given kds) as [ps|] eqn:Hps; [|discriminate].
  injection H as <-. inversion Hnd as [|? ? Hk0 Hnd']; subst.
  destruct (cast_weight_spec _ _ _ _ Hp) as (Hfst & _).
  destruct p as [pk pv]. simpl in Hfst. subst pk. simpl.
  destruct Hin as [[= -> ->]|Hin].
  - exists (k, pv). rewrite String.eqb_refl. now split.
  - destruct (String.eqb_spec k k0) as [->|Hne].
    + exfalso. apply Hk0. change k0 with (fst (k0, d)). now apply in_map.
    + now apply IH.
Qed.

Lemma weight_defaults_NoDup : List.NoDup (List.map fst RankResult.weight_defaults).
Proof.
  simpl. repeat constructor; simpl; intuition discriminate.
Qed.

(** The four paths of [weights] for a given object. *)
Lemma cast_weights_object given ws :
  RankResult.cast_weight_paths P given RankResult.weight_defaults = Some ws ->
  forall k d, In (k, d) RankResult.weight_defaults ->
    (JS.obj_get k given = None -> JS.obj_get k ws = Some (VNum d)) /\
    (forall q, JS.obj_get k given = Some (VNum q) -> JS.obj_get k ws = Some (VNum q)).
Proof.
  intros H k d Hin.
  destruct (cast_weight_paths_get _ _ _ H weight_defaults_NoDup k d Hin) as (p & Hp & ->).
  destruct (cast_weight_spec _ _ _ _ Hp) as (_ & Hnone & Hnum).
  split; [intros E; now rewrite (Hnone E)|intros q E; now rewrite (Hnum q E)].
Qed.

Lemma find_app {A : Type} (f : A -> bool) (l l' : list A) :
  List.find f (l ++ l') =
    match List.find f l with
    | Some x => Some x
    | None => List.find f l'
    end.
Proof.
  induction l as [|a l IH]; simpl; [reflexivity|]. now destruct (f a).
Qed.

(** A submission only ever appends to the collection. *)
Lemma submit_world env s w :
  db_up (snd (submit P env s w)) = db_up w /\
  exists l, db (snd (submit P env s w)) = (db w ++ l)%list.
Proof.
  assert (Hcreate : forall i w0,
    db_up (snd (RankResult.create P env i w0)) = db_up w0 /\
    exists l, db (snd (RankResult.create P env i w0)) = (db w0 ++ l)%list).
  { intros i w0. unfold RankResult.create.
    destruct (RankResult.build P env i); simpl; [|split; [|exists []]; now rewrite ?app_nil_r].
    destruct (db_up w0) eqn:Hup; simpl; [|split; [|exists []]; now rewrite ?app_nil_r].
    destruct (existsb _ (db w0)); simpl; split; eauto; exists []; now rewrite app_nil_r. }
  destruct s as [req|req]; simpl.
  - unfold Rank.upload.
    destruct (JS.truthy_text (up_jd req)) as [jd|]; cbn [snd].
    + destruct (Nat.eqb _ 0); cbn [snd];
        [split; [|exists []]; now rewrite ?app_nil_r|].
      destruct (Rank.upload_try _ _ _ _ _ _ _) as [r w'] eqn:Htry. cbn [snd].
      destruct (unlink_each_world (default [] (up_files req)) w') as (-> & -> & _).
      destruct r as [v|e].
      * apply upload_try_ok in Htry
          as (st & text & data & clean & ws & saved & _ & _ & _ & _ & _ & Hcr & _).
        apply create_ok in Hcr as (_ & _ & _ & ->). simpl. eauto.
      * apply upload_try_throw in Htry as ->. simpl.
        split; [|exists []]; now rewrite ?app_nil_r.
    + destruct (unlink_each_world (default [] (up_files req)) w) as (-> & -> & _).
      split; [|exists []]; now rewrite ?app_nil_r.
  - unfold Rank.stored.
    destruct (JS.obj_get "jd" (st_body req)) as [j|]; cbn [snd];
      [|split; [|exists []]; now rewrite ?app_nil_r].
    destruct (JS.truthy j); cbn [snd]; [|split; [|exists []]; now rewrite ?app_nil_r].
    destruct (Rank.stored_try _ _ _ _ _ _) as [r w'] eqn:Htry. cbn [snd].
    destruct r as [v|e].
    + apply stored_try_ok in Htry
        as (st & text & data & clean & saved & _ & _ & _ & _ & Hcr & _).
      apply create_ok in Hcr as (_ & _ & _ & ->). simpl. eauto.
    + apply stored_try_throw in Htry as ->.
      destruct (Rank.sendable j); simpl; split; try reflexivity;
        exists []; now rewrite app_nil_r.
Qed.

Lemma later_world w w' :
  later P w w' -> db_up w' = db_up w /\ exists l, db w' = (db w ++ l)%list.
Proof.
  induction 1 as [|env s w' _ (Hup & l & Hdb)].
  - split; [reflexivity|]. exists []. now rewrite app_nil_r.
  - destruct (submit_world env s w') as (Hup' & l' & Hdb').
    split; [congruence|]. exists (l ++ l')%list. now rewrite Hdb', Hdb, app_assoc.
Qed.

(** The session a successful submission stores is the one its owner
    reads back under its id, now and after any further submissions. *)
Lemma session_is_read_back env s w data clean ws saved id w' :
  succeeded P env s w data clean ws saved ->
  castObjectId P id = Some (fresh_id env) ->
  later P (snd (submit P env s w)) w' ->
  Rank.history_item P (submitter s) id w' = res_json (VObj saved).
Proof.
  intros [_ _ _ (jd & _ & Hb) Hfresh _ Hdb Hup] Hid Hlater.
  apply later_world in Hlater as (Hup' & l & Hdb').
  unfold Rank.history_item. rewrite Hid, Hup', Hup.
  unfold Query.findOne. rewrite Hdb', Hdb, <- app_assoc, find_app.
  assert (Hnone : List.find (fun d => RankResult.has_id (fresh_id env) d &&
                                      RankResult.has_owner (submitter s) d) (db w) = None).
  { apply find_none_iff. intros d Hd.
    destruct (RankResult.has_id (fresh_id env) d) eqn:Hi; [|reflexivity].
    exfalso. assert (E : existsb (RankResult.has_id (fresh_id env)) (db w) = true)
      by (apply existsb_exists; eauto). congruence. }
  rewrite Hnone.
  apply build_Some in Hb as (jd' & items & ws' & _ & _ & _ & ->). simpl.
  unfold RankResult.has_id, RankResult.has_owner. simpl.
  now rewrite !N.eqb_refl.
Qed.

End Weights.

(** C6, as the routes have it: in the session a successful upload stores,
    a weight the supplied object gives as a number is that number,
    whatever its sign; a weight the object does not name is the default
    of the schema (0.5, 0.25, 0.15, 0.1); and when no weights text comes
    with the request (none, or an empty one) all four are the defaults. *)
Theorem upload_persists_given_weights (P : Platform) (env : request_env)
    (req : upload_request) (w : world) :
  status (fst (Rank.upload P env req w)) = 200 ->
  exists saved,
    db (snd (Rank.upload P env req w)) = (db w ++ [saved])%list /\
    match JS.truthy_text (up_weights req) with
    | None =>
        forall k d, In (k, d) RankResult.weight_defaults ->
                    persisted_weight saved k = Some (VNum d)
    | Some t =>
        exists v, JSON_parse P t = Some v /\
          forall given, v = VObj given ->
            forall k d, In (k, d) RankResult.weight_defaults ->
              (JS.obj_get k given = None -> persisted_weight saved k = Some (VNum d)) /\
              (forall q, JS.obj_get k given = Some (VNum q) ->
                         persisted_weight saved k = Some (VNum q))
    end.
Proof.
  intros Hst.
  destruct (submit_success P env (Upload req) w Hst) as (data & clean & ws & saved & H).
  destruct H as [_ _ Hw (jd & _ & Hb) _ _ Hdb _]. simpl in Hw, Hdb.
  exists saved. split; [exact Hdb|].
  apply build_Some in Hb as (jd' & items & ws' & _ & _ & Hws & ->).
  cbn [RankResult.in_weights] in Hws. unfold given_weights in Hw.
  destruct (JS.truthy_text (up_weights req)) as [t|].
  - destruct Hw as (v & Hv & ->). exists v. split; [exact Hv|].
    intros given -> k d Hin. cbn [RankResult.cast_weights] in Hws.
    destruct (RankResult.cast_weight_paths P given RankResult.weight_defaults)
      as [o|] eqn:Ho; [|discriminate].
    injection Hws as <-.
    change (persisted_weight _ k) with (JS.obj_get k o).
    exact (cast_weights_object P given o Ho k d Hin).
  - subst ws. intros k d Hin. cbn [RankResult.cast_weights] in Hws.
    destruct (RankResult.cast_weight_paths P [] RankResult.weight_defaults)
      as [o|] eqn:Ho; [|discriminate].
    injection Hws as <-.
    change (persisted_weight _ k) with (JS.obj_get k o).
    destruct (cast_weights_object P [] o Ho k d Hin) as [Hdefault _].
    now apply Hdefault.
Qed.

Lemma upload_persists_given_weights_witness :
  exists saved,
    db (snd (Rank.upload Demo.up Demo.env1 (Demo.upload_with (Some Demo.weights_text))
               Demo.empty_world)) = (db Demo.empty_world ++ [saved])%list /\
    match JS.truthy_text (up_weights (Demo.upload_with (Some Demo.weights_text))) with
    | None =>
        forall k d, In (k, d) RankResult.weight_defaults ->
                    persisted_weight saved k = Some (VNum d)
    | Some t =>
        exists v, JSON_parse Demo.up t = Some v /\
          forall given, v = VObj given ->
            forall k d, In (k, d) RankResult.weight_defaults ->
              (JS.obj_get k given = None -> persisted_weight saved k = Some (VNum d)) /\
              (forall q, JS.obj_get k given = Some (VNum q) ->
                         persisted_weight saved k = Some (VNum q))
    end.
Proof.
  apply (upload_persists_given_weights Demo.up Demo.env1
           (Demo.upload_with (Some Demo.weights_text)) Demo.empty_world).
  reflexivity.
Defined.

(** C6, as the claim has it, fails: a negative weight is not refused, and
    the session of this upload holds it. *)
Lemma negative_weight_is_persisted :
  status (fst (Rank.upload Demo.up Demo.env1
                 (Demo.upload_with (Some Demo.negative_weights_text))
                 Demo.empty_world)) = 200 /\
  exists saved q,
    db (snd (Rank.upload Demo.up Demo.env1
               (Demo.upload_with (Some Demo.negative_weights_text))
               Demo.empty_world)) = [saved] /\
    persisted_weight saved "semantic" = Some (VNum q) /\
    ~ (0 <= q)%Q.
Proof.
  split; [reflexivity|]. eexists _, _. split; [reflexivity|]. split; [reflexivity|].
  intros H. now apply H.
Qed.

(** C7: the four weights a successful upload supplies are the weights of
    the session it creates, and the owner reads that session back, with
    these weights, under the session's id, right away and after any
    further submissions. *)
Theorem weights_round_trip (P : Platform) (env : request_env) (req : upload_request)
    (w : world) (t : string) (given : obj) (a b c d : Q) (id : string) (w' : world) :
  status (fst (Rank.upload P env req w)) = 200 ->
  JS.truthy_text (up_weights req) = Some t ->
  JSON_parse P t = Some (VObj given) ->
  JS.obj_get "semantic" given = Some (VNum a) ->
  JS.obj_get "skill" given = Some (VNum b) ->
  JS.obj_get "experience" given = Some (VNum c) ->
  JS.obj_get "education" given = Some (VNum d) ->
  castObjectId P id = Some (fresh_id env) ->
  later P (snd (Rank.upload P env req w)) w' ->
  exists saved,
    In saved (db (snd (Rank.upload P env req w))) /\
    RankResult._id saved = VOid (fresh_id env) /\
    JS.obj_get "weights" saved =
      Some (VObj [("semantic", VNum a); ("skill", VNum b);
                  ("experience", VNum c); ("education", VNum d)]) /\
    Rank.history_item P (up_user req) id w' = res_json (VObj saved).
Proof.
  intros Hst Ht Hparse Ha Hb Hc Hd Hid Hlater.
  destruct (submit_success P env (Upload req) w Hst) as (data & clean & ws & saved & H).
  pose proof (session_is_read_back P env (Upload req) w data clean ws saved id w' H Hid Hlater)
    as Hread.
  destruct H as [_ _ Hw (jd & _ & Hbuild) _ _ Hdb _]. simpl in Hw, Hdb, Hread.
  exists saved. split; [rewrite Hdb; apply in_or_app; right; now left|].
  unfold given_weights in Hw. rewrite Ht in Hw. destruct Hw as (v & Hv & ->).
  rewrite Hparse in Hv. injection Hv as <-.
  apply build_Some in Hbuild as (jd' & items & ws' & _ & _ & Hws & ->).
  simpl in Hws. unfold RankResult.cast_weight in Hws. simpl in Hws.
  rewrite Ha, Hb, Hc, Hd in Hws. injection Hws as <-.
  repeat split. exact Hread.
Qed.

Lemma weights_round_trip_witness :
  exists saved,
    In saved (db (snd (Rank.upload Demo.up Demo.env1
                         (Demo.upload_with (Some Demo.weights_text)) Demo.empty_world))) /\
    RankResult._id saved = VOid (fresh_id Demo.env1) /\
    JS.obj_get "weights" saved =
      Some (VObj [("semantic", VNum (3 # 5)); ("skill", VNum (1 # 5));
                  ("experience", VNum (1 # 10)); ("education", VNum (1 # 10))]) /\
    Rank.history_item Demo.up (up_user (Demo.upload_with (Some Demo.weights_text)))
      "000000000000000000001000"
      (snd (submit Demo.up Demo.env2 (Stored Demo.stored_request1)
              (snd (Rank.upload Demo.up Demo.env1
                      (Demo.upload_with (Some Demo.weights_text)) Demo.empty_world))))
      = res_json (VObj saved).
Proof.
  apply (weights_round_trip Demo.up Demo.env1 (Demo.upload_with (Some Demo.weights_text))
           Demo.empty_world Demo.weights_text
           [("semantic", VNum (3 # 5)); ("skill", VNum (1 # 5));
            ("experience", VNum (1 # 10)); ("education", VNum (1 # 10))]).
  - reflexivity.
  - reflexivity.
  - reflexivity.
  - reflexivity.
  - reflexivity.
  - reflexivity.
  - reflexivity.
  - reflexivity.
  - apply (later_submit Demo.up _ Demo.env2 (Stored Demo.stored_request1)).
    apply later_now.
Defined.

(** C9: POST /stored hands no weights to [create], whatever its body
    holds, so the session it creates has the four defaults of the schema,
    and the owner reads it back with exactly these. *)
Theorem stored_sessions_have_default_weights (P : Platform) (env : request_env)
    (req : stored_request) (w : world) (id : string) (w' : world) :
  status (fst (Rank.stored P env req w)) = 200 ->
  castObjectId P id = Some (fresh_id env) ->
  later P (snd (Rank.stored P env req w)) w' ->
  exists saved,
    In saved (db (snd (Rank.stored P env req w))) /\
    RankResult._id saved = VOid (fresh_id env) /\
    JS.obj_get "weights" saved =
      Some (VObj [("semantic", VNum (1 # 2)); ("skill", VNum (1 # 4));
                  ("experience", VNum (3 # 20)); ("education", VNum (1 # 10))]) /\
    Rank.history_item P (st_user req) id w' = res_json (VObj saved).
Proof.
  intros Hst Hid Hlater.
  destruct (submit_success P env (Stored req) w Hst) as (data & clean & ws & saved & H).
  pose proof (session_is_read_back P env (Stored req) w data clean ws saved id w' H Hid Hlater)
    as Hread.
  destruct H as [_ _ Hw (jd & _ & Hbuild) _ _ Hdb _]. simpl in Hw, Hdb, Hread. subst ws.
  exists saved. split; [rewrite Hdb; apply in_or_app; right; now left|].
  apply build_Some in Hbuild as (jd' & items & ws' & _ & _ & Hws & ->).
  simpl in Hws. injection Hws as <-.
  repeat split. exact Hread.
Qed.

Lemma stored_sessions_have_default_weights_witness :
  exists saved,
    In saved (db (snd (Rank.stored Demo.up Demo.env1
                         {| st_user := 7%N;
                            st_body := [("jd", VStr "Go engineer");
                                        ("weights", VObj [("semantic", VNum 1)])] |}
                         Demo.empty_world))) /\
    RankResult._id saved = VOid (fresh_id Demo.env1) /\
    JS.obj_get "weights" saved =
      Some (VObj [("semantic", VNum (1 # 2)); ("skill", VNum (1 # 4));
                  ("experience", VNum (3 # 20)); ("education", VNum (1 # 10))]) /\
    Rank.history_item Demo.up 7%N "000000000000000000001000"
      (snd (Rank.stored Demo.up Demo.env1
              {| st_user := 7%N;
                 st_body := [("jd", VStr "Go engineer");
                             ("weights", VObj [("semantic", VNum 1)])] |}
              Demo.empty_world))
      = res_json (VObj saved).
Proof.
  apply (stored_sessions_have_default_weights Demo.up Demo.env1
           {| st_user := 7%N;
              st_body := [("jd", VStr "Go engineer");
                          ("weights", VObj [("semantic", VNum 1)])] |}
           Demo.empty_world "000000000000000000001000").
  - reflexivity.
  - reflexivity.
  - apply later_now.
Defined.

(** ** The list of sessions *)

Section Listing.





(** A field that a path ends at is kept as the document has it. *)
Lemma select_get_whole paths d k :
  existsb Query.is_nil (Query.below k paths) = true ->
  JS.obj_get k (Query.select paths d) = JS.obj_get k d.
Proof.
  intros Hk.
  assert (Hnn : Query.is_nil (Query.below k paths) = false)
    by (destruct (Query.below k paths); [discriminate|reflexivity]).
  induction d as [|[k0 x] d IH]; simpl; [reflexivity|].
  destruct (String.eqb k0 "_id").
  { simpl. now rewrite IH. }
  destruct (String.eqb_spec k k0) as [<-|Hne].
  - rewrite Hnn, Hk. simpl. now rewrite String.eqb_refl.
  - destruct (Query.is_nil (Query.below k0 paths)); [exact IH|].
    destruct (existsb Query.is_nil (Query.below k0 paths)).
    + simpl. destruct (String.eqb_spec k k0); [congruence|exact IH].
    + destruct (Query.project_value (Query.below k0 paths) x); [|exact IH].
      simpl. destruct (String.eqb_spec k k0); [congruence|exact IH].
Qed.





















End Listing.



(** * Further properties of the routes *)

Section Submissions.

Variable P : Platform.

Lemma upload_try_calls env user jd weights files w :
  engine_calls (snd (Rank.upload_try P env user jd weights files w))
    = (engine_calls w ++ [Rank.upload_form jd weights files])%list.
Proof.
  destruct (Rank.upload_try P env user jd weights files w) as [[v|e] w'] eqn:H; simpl.
  - apply upload_try_ok in H
      as (st & text & data & clean & ws & saved & _ & _ & _ & _ & _ & Hc & _).
    apply create_ok in Hc as (_ & _ & _ & ->). reflexivity.
  - apply upload_try_throw in H as ->. reflexivity.
Qed.

Lemma stored_try_calls env user jd top_k w :
  engine_calls (snd (Rank.stored_try P env user jd top_k w))
    = (engine_calls w
       ++ if Rank.sendable jd then [RankStored jd top_k] else [])%list.
Proof.
  destruct (Rank.stored_try P env user jd top_k w) as [[v|e] w'] eqn:H; simpl.
  - rewrite (stored_try_ok_sendable _ _ _ _ _ _ _ _ H).
    apply stored_try_ok in H as (st & text & data & clean & saved & _ & _ & _ & _ & Hc & _).
    apply create_ok in Hc as (_ & _ & _ & ->). reflexivity.
  - apply stored_try_throw in H as ->.
    destruct (Rank.sendable jd); simpl; [reflexivity|now rewrite app_nil_r].
Qed.

(** The document a successful submission stores. *)
Lemma succeeded_saved env s w data clean ws saved :
  succeeded P env s w data clean ws saved ->
  exists jd items weights,
    saved = ([("_id", VOid (fresh_id env));
              ("owner", VOid (submitter s));
              ("jobDescription", VStr jd);
              ("rankings", VArr items)]
             ++ RankResult.weights_path weights
             ++ [("createdAt", VDate (now env));
                 ("updatedAt", VDate (now env));
                 ("__v", VNum 0%Q)])%list.
Proof.
  intros [_ _ _ (jd & _ & Hb) _ _ _ _].
  apply build_Some in Hb as (jd' & items & ws' & _ & _ & _ & ->). eauto.
Qed.

(** A submission that is not answered 200 stores nothing. *)
Lemma submit_failure_db env s w :
  status (fst (submit P env s w)) <> 200 -> db (snd (submit P env s w)) = db w.
Proof.
  destruct s as [req|req]; simpl.
  - unfold Rank.upload.
    destruct (JS.truthy_text (up_jd req)) as [jd|]; cbn [fst snd].
    + destruct (Nat.eqb _ 0); cbn [fst snd]; [reflexivity|].
      destruct (Rank.upload_try _ _ _ _ _ _ _) as [[v|e] w'] eqn:Htry; cbn [fst snd].
      * intros H. now elim H.
      * intros _. apply upload_try_throw in Htry as ->.
        now destruct (unlink_each_world (default [] (up_files req))
                        (Rank.log_call (Rank.upload_form jd (up_weights req)
                                          (default [] (up_files req))) w)) as (_ & -> & _).
    + intros _.
      now destruct (unlink_each_world (default [] (up_files req)) w) as (_ & -> & _).
  - unfold Rank.stored.
    destruct (JS.obj_get "jd" (st_body req)) as [j|]; cbn [fst snd]; [|reflexivity].
    destruct (JS.truthy j); cbn [fst snd]; [|reflexivity].
    destruct (Rank.stored_try _ _ _ _ _ _) as [[v|e] w'] eqn:Htry; cbn [fst snd].
    + intros H. now elim H.
    + intros _. apply stored_try_throw in Htry as ->.
      now destruct (Rank.sendable j).
Qed.

End Submissions.

(** Every submission sends the engine at most one request: the one its
    route builds when its checks pass, none when the route answers 400
    first.  A failure after the call is never followed by a second call.
    On the stored path a job description that is truthy but neither a
    string nor a number cannot be put in the form: nothing is sent, the
    answer is that of the error handler and the world is as it was. *)
Theorem engine_is_called_at_most_once (P : Platform) (env : request_env)
    (s : submission) (w : world) :
  engine_calls (snd (submit P env s w))
    = (engine_calls w ++ match engine_call_of s with
                         | Some call => [call]
                         | None => []
                         end)%list /\
  forall req j,
    s = Stored req -> JS.obj_get "jd" (st_body req) = Some j ->
    JS.truthy j = true -> Rank.sendable j = false ->
    engine_call_of s = None /\
    submit P env s w = (error_handler (raise P TypeError), w).
Proof.
  split.
  - destruct s as [req|req]; simpl.
    + unfold Rank.upload.
      destruct (JS.truthy_text (up_jd req)) as [jd|]; cbn [snd].
      * destruct (Nat.eqb _ 0); cbn [snd]; [now rewrite app_nil_r|].
        pose proof (upload_try_calls P env (up_user req) jd (up_weights req)
                      (default [] (up_files req)) w) as Hcalls.
        destruct (Rank.upload_try _ _ _ _ _ _ _) as [r w']. cbn [snd] in *.
        now destruct (unlink_each_world (default [] (up_files req)) w')
          as (_ & _ & -> & _).
      * destruct (unlink_each_world (default [] (up_files req)) w) as (_ & _ & -> & _).
        now rewrite app_nil_r.
    + unfold Rank.stored.
      destruct (JS.obj_get "jd" (st_body req)) as [j|]; cbn [snd];
        [|now rewrite app_nil_r].
      destruct (JS.truthy j); cbn [snd]; [|now rewrite app_nil_r].
      pose proof (stored_try_calls P env (st_user req) j
                    (default (VNum 20%Q) (JS.obj_get "top_k" (st_body req))) w) as Hcalls.
      destruct (Rank.stored_try _ _ _ _ _ _) as [r w']. cbn [snd andb] in *.
      rewrite Hcalls. now destruct (Rank.sendable j).
  - intros req j -> Hjd Ht Hsend. simpl. rewrite Hjd, Ht, Hsend. split; [reflexivity|].
    unfold Rank.stored. rewrite Hjd, Ht. unfold Rank.stored_try. now rewrite Hsend.
Qed.

(** A session is created exactly when the submission is answered 200: a
    200 appends one session, owned by the submitter, with the fresh id and
    the time of the request, after the sessions that were there; any other
    answer leaves the collection as it was. *)
Theorem session_created_exactly_on_success (P : Platform) (env : request_env)
    (s : submission) (w : world) :
  (status (fst (submit P env s w)) = 200 ->
   exists saved,
     db (snd (submit P env s w)) = (db w ++ [saved])%list /\
     JS.obj_get "_id" saved = Some (VOid (fresh_id env)) /\
     JS.obj_get "owner" saved = Some (VOid (submitter s)) /\
     JS.obj_get "createdAt" saved = Some (VDate (now env)) /\
     existsb (RankResult.has_id (fresh_id env)) (db w) = false) /\
  (status (fst (submit P env s w)) <> 200 ->
   db (snd (submit P env s w)) = db w).
Proof.
  split; [|apply submit_failure_db].
  intros Hst. destruct (submit_success P env s w Hst) as (data & clean & ws & saved & H).
  destruct (succeeded_saved P env s w data clean ws saved H) as (jd & items & wts & ->).
  destruct H as [_ _ _ _ Hfresh _ Hdb _].
  eexists. split; [exact Hdb|]. repeat split; [now destruct wts|exact Hfresh].
Qed.

Section Reads.

Variable P : Platform.

(** What a submission does to the collection. *)
Lemma submit_db_cases env s w :
  db (snd (submit P env s w)) = db w \/
  exists jd items rest,
    db (snd (submit P env s w))
      = (db w ++ [("_id", VOid (fresh_id env))
                  :: ("owner", VOid (submitter s))
                  :: ("jobDescription", VStr jd)
                  :: ("rankings", VArr items)
                  :: rest])%list.
Proof.
  destruct (Nat.eq_dec (status (fst (submit P env s w))) 200) as [Hst|Hst].
  - right. destruct (submit_success P env s w Hst) as (data & clean & ws & saved & H).
    destruct (succeeded_saved P env s w data clean ws saved H) as (jd & items & wts & ->).
    destruct H as [_ _ _ _ _ _ Hdb _]. cbn [app] in Hdb. eauto.
  - left. now apply submit_failure_db.
Qed.

Lemma filter_snoc {A : Type} (f : A -> bool) (l : list A) (x : A) :
  List.filter f (l ++ [x]) = (List.filter f l ++ if f x then [x] else [])%list.
Proof.
  rewrite List.filter_app. simpl. now destruct (f x).
Qed.

(** The newest document of all, appended last, sorts first. *)
Lemma newest_first_snoc l d :
  (forall e, In e l -> Query.not_newer (Query.createdAt d) (Query.createdAt e) = false) ->
  Query.newest_first (l ++ [d]) = d :: Query.newest_first l.
Proof.
  unfold Query.newest_first.
  induction l as [|e l IH]; intros Hnew; simpl; [reflexivity|].
  rewrite IH by (intros x Hx; apply Hnew; now right). simpl.
  now rewrite (Hnew e (or_introl eq_refl)).
Qed.

End Reads.

(** What an owner reads is not touched by the submissions of the others:
    after a submission by someone else, GET /history and every
    GET /history/:id answer the owner exactly as before. *)
Theorem reads_ignore_other_owners (P : Platform) (env : request_env)
    (s : submission) (w : world) (user : oid) :
  submitter s <> user ->
  Rank.history P user (snd (submit P env s w)) = Rank.history P user w /\
  forall id, Rank.history_item P user id (snd (submit P env s w))
             = Rank.history_item P user id w.
Proof.
  intros Hother.
  destruct (submit_world P env s w) as (Hup & _).
  assert (Hneq : N.eqb user (submitter s) = false) by (apply N.eqb_neq; congruence).
  destruct (submit_db_cases P env s w) as [Hdb|(jd & items & wts & Hdb)].
  - unfold Rank.history, Rank.history_item, Query.find, Query.findOne.
    rewrite Hup, Hdb. now split.
  - unfold Rank.history, Rank.history_item, Query.find, Query.findOne.
    rewrite Hup, Hdb. split.
    + destruct (db_up w); [|reflexivity].
      rewrite filter_snoc. unfold RankResult.has_owner at 2. simpl.
      rewrite Hneq. now rewrite app_nil_r.
    + intros id. destruct (castObjectId P id) as [i|]; [|reflexivity].
      destruct (db_up w); [|reflexivity].
      rewrite find_app. unfold RankResult.has_owner at 2. simpl.
      rewrite Hneq, Bool.andb_false_r.
      now destruct (List.find _ (db w)).
Qed.

Lemma reads_ignore_other_owners_witness :
  Rank.history Demo.up 8%N
    (snd (submit Demo.up Demo.env1 (Upload (Demo.upload_with None)) Demo.empty_world))
    = Rank.history Demo.up 8%N Demo.empty_world /\
  forall id, Rank.history_item Demo.up 8%N id
               (snd (submit Demo.up Demo.env1 (Upload (Demo.upload_with None))
                       Demo.empty_world))
             = Rank.history_item Demo.up 8%N id Demo.empty_world.
Proof.
  apply (reads_ignore_other_owners Demo.up Demo.env1 (Upload (Demo.upload_with None))
           Demo.empty_world 8%N).
  discriminate.
Defined.

(** A session created at a time later than every session its owner
    already has is the first entry of the owner's next GET /history. *)
Theorem new_session_heads_history (P : Platform) (env : request_env)
    (s : submission) (w : world) :
  status (fst (submit P env s w)) = 200 ->
  (forall d, In d (db w) -> RankResult.has_owner (submitter s) d = true ->
             Query.not_newer (Some (now env)) (Query.createdAt d) = false) ->
  exists summary rest,
    Rank.history P (submitter s) (snd (submit P env s w))
      = res_json (VArr (VObj summary :: rest)) /\
    JS.obj_get "_id" summary = Some (VOid (fresh_id env)) /\
    JS.obj_get "createdAt" summary = Some (VDate (now env)).
Proof.
  intros Hst Hclock.
  destruct (submit_success P env s w Hst) as (data & clean & ws & saved & H).
  destruct (succeeded_saved P env s w data clean ws saved H) as (jd & items & wts & ->).
  destruct H as [_ _ _ _ _ _ Hdb Hup].
  unfold Rank.history, Query.find. rewrite Hup, Hdb, filter_snoc.
  unfold RankResult.has_owner at 2. cbn [JS.obj_get String.eqb Ascii.eqb Bool.eqb app].
  rewrite N.eqb_refl, newest_first_snoc.
  - cbn [firstn List.map]. eexists _, _. split; [reflexivity|].
    split; [reflexivity|]. rewrite select_get_whole by reflexivity. now destruct wts.
  - intros e He. apply filter_In in He as (He & Hown).
    replace (Query.createdAt _) with (Some (now env)) by (now destruct wts).
    now apply Hclock.
Qed.

Lemma new_session_heads_history_witness :
  exists summary rest,
    Rank.history Demo.up (submitter (Stored Demo.stored_request1))
      (snd (submit Demo.up Demo.env2 (Stored Demo.stored_request1)
              (snd (Rank.upload Demo.up Demo.env1 (Demo.upload_with None)
                      Demo.empty_world))))
      = res_json (VArr (VObj summary :: rest)) /\
    JS.obj_get "_id" summary = Some (VOid (fresh_id Demo.env2)) /\
    JS.obj_get "createdAt" summary = Some (VDate (now Demo.env2)).
Proof.
  apply (new_session_heads_history Demo.up Demo.env2 (Stored Demo.stored_request1)
           (snd (Rank.upload Demo.up Demo.env1 (Demo.upload_with None) Demo.empty_world))).
  - reflexivity.
  - intros d [<-|[]] _. reflexivity.
Defined.

(** When the engine answers with a status that is not a success, POST
    /upload answers with that very status (500 when it is 0) and the
    engine's body as the error message, while POST /stored answers 500
    with the same message. *)
Theorem engine_status_passes_through_on_upload_only (P : Platform) (env : request_env)
    (s : submission) (w : world) (call : engine_request) (st : nat) (text : string) :
  engine_call_of s = Some call ->
  fetch P call = FetchResponse st text ->
  res_ok st = false ->
  fst (submit P env s w)
    = res_error
        (match s with
         | Upload _ => if Nat.eqb st 0 then 500 else st
         | Stored _ => 500
         end)
        (if String.eqb text "" then "Internal server error" else text).
Proof.
  intros Hcall Hf Hok. destruct s as [req|req]; simpl in *.
  - destruct (JS.truthy_text (up_jd req)) as [jd|] eqn:Hjd; [|discriminate].
    destruct (Nat.eqb (length (default [] (up_files req))) 0) eqn:Hlen; [discriminate|].
    injection Hcall as <-. rewrite (upload_run P env req w jd Hjd Hlen).
    unfold Rank.upload_try. now rewrite Hf, Hok.
  - destruct (JS.obj_get "jd" (st_body req)) as [j|] eqn:Hjd; [|discriminate].
    destruct (JS.truthy j) eqn:Ht; [|discriminate].
    destruct (Rank.sendable j) eqn:Hsend; [|discriminate].
    injection Hcall as <-. rewrite (stored_run P env req w j Hjd Ht).
    unfold Rank.stored_try. now rewrite Hsend, Hf, Hok.
Qed.

Lemma engine_status_passes_through_on_upload_only_witness :
  fst (submit (Demo.platform Demo.engine_refuses) Demo.env1
         (Upload (Demo.upload_with None)) Demo.empty_world)
    = res_error (if Nat.eqb 422 0 then 500 else 422)
        (if String.eqb "weights must sum to 1" "" then "Internal server error"
         else "weights must sum to 1").
Proof.
  apply (engine_status_passes_through_on_upload_only
           (Demo.platform Demo.engine_refuses) Demo.env1
           (Upload (Demo.upload_with None)) Demo.empty_world
           (Rank.upload_form "Senior backend engineer, 5+ years Go, Kubernetes" None
              [Demo.alice]) 422 "weights must sum to 1").
  - reflexivity.
  - reflexivity.
  - reflexivity.
Defined.

(** The [resultId] of a successful response is the id of the session just
    created, unless the engine's envelope has a [resultId] of its own: the
    envelope is spread after it, and its value is then the one returned. *)
Theorem resultId_is_overridden_by_the_envelope (P : Platform) (env : request_env)
    (s : submission) (w : world) :
  status (fst (submit P env s w)) = 200 ->
  exists data fields,
    (exists call st text,
        engine_call_of s = Some call /\ fetch P call = FetchResponse st text /\
        JSON_parse P text = Some data) /\
    body (fst (submit P env s w)) = VObj fields /\
    JS.obj_get "resultId" fields =
      match JS.obj_get "resultId" (JS.own_props data) with
      | Some v => Some v
      | None => Some (VOid (fresh_id env))
      end.
Proof.
  intros Hst. destruct (submit_success P env s w Hst) as (data & clean & ws & saved & H).
  destruct (succeeded_saved P env s w data clean ws saved H) as (jd & items & wts & ->).
  destruct H as [(call & st & text & Hcall & Hf & _ & Hd) _ _ _ _ Hresp _ _].
  eexists data, _. split; [eauto 10|]. rewrite Hresp. split; [reflexivity|].
  now rewrite obj_get_assign.
Qed.

Lemma resultId_is_overridden_by_the_envelope_witness :
  exists data fields,
    (exists call st text,
        engine_call_of (Upload (Demo.upload_with None)) = Some call /\
        fetch Demo.up call = FetchResponse st text /\
        JSON_parse Demo.up text = Some data) /\
    body (fst (submit Demo.up Demo.env1 (Upload (Demo.upload_with None)) Demo.empty_world))
      = VObj fields /\
    JS.obj_get "resultId" fields =
      match JS.obj_get "resultId" (JS.own_props data) with
      | Some v => Some v
      | None => Some (VOid (fresh_id Demo.env1))
      end.
Proof.
  apply (resultId_is_overridden_by_the_envelope Demo.up Demo.env1
           (Upload (Demo.upload_with None)) Demo.empty_world).
  reflexivity.
Defined.

(** A weights text that is not JSON is only found out after the engine
    has been called with it: the engine answers, the records are
    normalized, then JSON.parse throws; the answer is 500, no session is
    created and the temporary files are removed. *)
Theorem malformed_weights_fail_after_the_engine_call (P : Platform) (env : request_env)
    (req : upload_request) (w : world) (jd t : string) (st : nat) (text : string)
    (data : value) (clean : list obj) :
  JS.truthy_text (up_jd req) = Some jd ->
  Nat.eqb (length (default [] (up_files req))) 0 = false ->
  JS.truthy_text (up_weights req) = Some t ->
  JSON_parse P t = None ->
  fetch P (Rank.upload_form jd (up_weights req) (default [] (up_files req)))
    = FetchResponse st text ->
  res_ok st = true ->
  JSON_parse P text = Some data ->
  Rank.cleanRankings P data = Ok clean ->
  Rank.upload P env req w
    = (error_handler (raise P SyntaxError),
       Rank.unlink_each (default [] (up_files req))
         (Rank.log_call (Rank.upload_form jd (up_weights req) (default [] (up_files req))) w)).
Proof.
  intros Hjd Hlen Ht Hparse Hf Hok Hd Hc.
  rewrite (upload_run P env req w jd Hjd Hlen).
  unfold Rank.upload_try. rewrite Hf, Hok. cbn [negb]. rewrite Hd, Hc, Ht, Hparse.
  reflexivity.
Qed.

Lemma malformed_weights_fail_after_the_engine_call_witness :
  Rank.upload Demo.up Demo.env1 (Demo.upload_with (Some "{semantic:1}")) Demo.empty_world
    = (error_handler (raise Demo.up SyntaxError),
       Rank.unlink_each (default [] (up_files (Demo.upload_with (Some "{semantic:1}"))))
         (Rank.log_call
            (Rank.upload_form "Senior backend engineer, 5+ years Go, Kubernetes"
               (up_weights (Demo.upload_with (Some "{semantic:1}")))
               (default [] (up_files (Demo.upload_with (Some "{semantic:1}")))))
            Demo.empty_world)).
Proof.
  eapply (malformed_weights_fail_after_the_engine_call Demo.up Demo.env1
           (Demo.upload_with (Some "{semantic:1}")) Demo.empty_world
           "Senior backend engineer, 5+ years Go, Kubernetes" "{semantic:1}"
           200 Demo.envelope).
  - reflexivity.
  - reflexivity.
  - reflexivity.
  - reflexivity.
  - reflexivity.
  - reflexivity.
  - reflexivity.
  - reflexivity.
Defined.

(** POST /stored with a job description that is missing or falsy (null,
    false, 0 or the empty string) is answered 400 and does nothing else:
    the world is the one before. *)
Theorem stored_rejects_a_falsy_jd (P : Platform) (env : request_env)
    (req : stored_request) (w : world) :
  JS.truthy_opt (JS.obj_get "jd" (st_body req)) = false ->
  Rank.stored P env req w = (res_error 400 "jd is required.", w).
Proof.
  unfold Rank.stored, JS.truthy_opt.
  destruct (JS.obj_get "jd" (st_body req)) as [j|]; [|reflexivity].
  now intros ->.
Qed.

Lemma stored_rejects_a_falsy_jd_witness :
  Rank.stored Demo.up Demo.env1 {| st_user := 7%N; st_body := [("jd", VNum 0)] |}
    Demo.empty_world
    = (res_error 400 "jd is required.", Demo.empty_world).
Proof.
  apply (stored_rejects_a_falsy_jd Demo.up Demo.env1
           {| st_user := 7%N; st_body := [("jd", VNum 0)] |} Demo.empty_world).
  reflexivity.
Defined.

Section Normalizing.

Variable P : Platform.

Lemma map_strip_resume_spec l clean :
  map_result (Rank.strip_resume P) l = Ok clean <->
  List.Forall (fun r => r <> VNull) l /\
  clean = List.map (fun r => JS.obj_without "resume" (JS.own_props r)) l.
Proof.
  revert clean. induction l as [|r l IH]; intros clean; simpl.
  - split.
    + intros [= <-]. split; [constructor|reflexivity].
    + now intros (_ & ->).
  - split.
    + destruct (Rank.strip_resume P r) as [item|] eqn:Hr; [|discriminate]. simpl.
      destruct (map_result (Rank.strip_resume P) l) as [items|] eqn:Hl; [|discriminate].
      intros [= <-]. destruct (proj1 (IH items) eq_refl) as (Hall & ->).
      assert (r <> VNull) by (intros ->; discriminate).
      split; [now constructor|].
      f_equal. unfold Rank.strip_resume in Hr. destruct r; congruence.
    + intros (Hall & ->). inversion Hall as [|? ? Hr Hl]; subst.
      rewrite (proj2 (IH _) (conj Hl eq_refl)).
      now destruct r.
Qed.

End Normalizing.

(** When the normalization of an envelope goes through and what it
    yields.  It throws on a null envelope, on rankings that are truthy
    and not an array, and on a null record; rankings that are missing or
    falsy count as no record at all; otherwise every record loses its
    [resume] and keeps its place. *)
Theorem cleanRankings_spec (P : Platform) (data : value) (clean : list obj) :
  Rank.cleanRankings P data = Ok clean <->
  data <> VNull /\
  (forall v, JS.member "rankings" data = Some v -> JS.truthy v = true ->
             exists l, v = VArr l) /\
  List.Forall (fun r => r <> VNull) (engine_records data) /\
  clean = List.map (fun r => JS.obj_without "resume" (JS.own_props r))
            (engine_records data).
Proof.
  unfold engine_records.
  assert (Hshape : data <> VNull ->
    Rank.cleanRankings P data =
      match (if JS.truthy_opt (JS.member "rankings" data)
             then default (VArr []) (JS.member "rankings" data) else VArr []) with
      | VArr l => map_result (Rank.strip_resume P) l
      | _ => Throw (raise P TypeError)
      end) by (intros Hd; destruct data; [congruence|reflexivity..]).
  split.
  - intros H. assert (Hd : data <> VNull) by (intros ->; discriminate).
    rewrite (Hshape Hd) in H. split; [exact Hd|].
    destruct (JS.member "rankings" data) as [v|]; simpl in H.
    + destruct (JS.truthy v) eqn:Ht; simpl in H.
      * destruct v; try discriminate. apply map_strip_resume_spec in H as (Hall & ->).
        split; [intros v [= <-] _; eauto|]. now split.
      * injection H as <-. split; [intros v' [= <-]; congruence|].
        destruct v; try discriminate; now split.
    + injection H as <-. split; [discriminate|]. now split.
  - intros (Hd & Harr & Hall & ->). rewrite (Hshape Hd).
    destruct (JS.member "rankings" data) as [v|]; simpl; [|reflexivity].
    destruct (JS.truthy v) eqn:Ht; simpl.
    + destruct (Harr v eq_refl Ht) as (l & ->).
      now apply map_strip_resume_spec.
    + destruct v; try reflexivity. discriminate.
Qed.

(** GET /history/:id answers 200 only with a session of the collection
    that has the requested id and belongs to the requester: the body is
    that stored document, whole. *)
Theorem detail_read_returns_an_own_session (P : Platform) (user : oid) (id : string)
    (w : world) :
  status (Rank.history_item P user id w) = 200 ->
  exists i d,
    castObjectId P id = Some i /\
    In d (db w) /\
    RankResult.has_id i d = true /\
    RankResult.has_owner user d = true /\
    Rank.history_item P user id w = res_json (VObj d).
Proof.
  unfold Rank.history_item.
  destruct (castObjectId P id) as [i|]; [|discriminate].
  destruct (db_up w); [|discriminate].
  destruct (Query.findOne i user w) as [d|] eqn:Hfind; [|discriminate].
  intros _. apply find_some in Hfind as (Hin & Hboth).
  apply andb_prop in Hboth as (Hid & Hown). exists i, d. auto.
Qed.

Lemma detail_read_returns_an_own_session_witness :
  exists i d,
    castObjectId Demo.up "000000000000000000001000" = Some i /\
    In d (db (snd (Rank.upload Demo.up Demo.env1 (Demo.upload_with None)
                     Demo.empty_world))) /\
    RankResult.has_id i d = true /\
    RankResult.has_owner 7%N d = true /\
    Rank.history_item Demo.up 7%N "000000000000000000001000"
      (snd (Rank.upload Demo.up Demo.env1 (Demo.upload_with None) Demo.empty_world))
      = res_json (VObj d).
Proof.
  apply (detail_read_returns_an_own_session Demo.up 7%N "000000000000000000001000").
  reflexivity.
Defined.

(** The error handler of the application always answers with a status
    that is not 0 and a message that is not empty: the status of the
    exception when it has one, 500 otherwise, and "Internal server error"
    in place of an empty message. *)
Theorem error_handler_always_answers (e : exn) :
  exists s msg,
    error_handler e = res_error s msg /\
    s <> 0 /\ msg <> "" /\
    (forall st, exn_status e = Some st -> st <> 0 -> s = st) /\
    (exn_status e = None -> s = 500) /\
    (exn_message e <> "" -> msg = exn_message e).
Proof.
  unfold error_handler. eexists _, _. split; [reflexivity|].
  repeat split.
  - destruct (exn_status e) as [st|]; [|discriminate].
    destruct (Nat.eqb_spec st 0); [discriminate|assumption].
  - destruct (String.eqb_spec (exn_message e) ""); [discriminate|assumption].
  - intros st -> Hst. now destruct (Nat.eqb_spec st 0).
  - now intros ->.
  - intros Hm. now destruct (String.eqb_spec (exn_message e) "").
Qed.

(** * The middleware *)

Section Words.

Lemma split_at_nonempty c s : Query.split_at c s <> [].
Proof.
  destruct s as [|a s]; simpl; [discriminate|].
  destruct (Query.split_at c s); [discriminate|].
  now destruct (Ascii.eqb a c).
Qed.

Lemma split_at_cons c a s :
  Query.split_at c (String a s) =
    if Ascii.eqb a c then EmptyString :: Query.split_at c s
    else String a (hd EmptyString (Query.split_at c s)) :: tl (Query.split_at c s).
Proof.
  simpl. destruct (Query.split_at c s) as [|w ws] eqn:Hs; [|reflexivity].
  now destruct (split_at_nonempty c s).
Qed.

Lemma append_empty (s : string) : (EmptyString ++ s)%string = s.
Proof. reflexivity. Qed.

Lemma append_cons a (s t : string) : (String a s ++ t)%string = String a (s ++ t).
Proof. reflexivity. Qed.

(** A text without the separator is one word; the separator ends a word. *)
Lemma split_at_word c t :
  ~ In c (list_ascii_of_string t) ->
  Query.split_at c t = [t] /\
  forall rest, Query.split_at c (t ++ String c rest) = t :: Query.split_at c rest.
Proof.
  induction t as [|a t IH]; intros Hc.
  - split; [reflexivity|]. intros rest.
    now rewrite append_empty, split_at_cons, Ascii.eqb_refl.
  - assert (Ha : Ascii.eqb a c = false)
      by (apply Ascii.eqb_neq; intros ->; apply Hc; now left).
    destruct IH as (IH1 & IH2); [intros H; apply Hc; now right|].
    split.
    + now rewrite split_at_cons, Ha, IH1.
    + intros rest. now rewrite append_cons, split_at_cons, Ha, IH2.
Qed.

Lemma prefix_app p s :
  String.prefix p s = true <-> exists rest, s = (p ++ rest)%string.
Proof.
  revert s. induction p as [|a p IH]; intros s.
  - split; [intros _; exists s; reflexivity|intros _; now destruct s].
  - destruct s as [|b s]; [split; [discriminate|intros (r & [=])]|].
    cbn [String.prefix]. destruct (Ascii.ascii_dec a b) as [->|Hne].
    + rewrite IH. split; intros (r & H); exists r.
      * rewrite append_cons. now f_equal.
      * rewrite append_cons in H. now injection H.
    + split; [discriminate|]. intros (r & H). rewrite append_cons in H. congruence.
Qed.

(** The token of a Bearer header is the first word after the scheme. *)
Lemma token_of_bearer rest :
  Auth.token_of ("Bearer " ++ rest) = Some (hd EmptyString (Query.split_at " " rest)).
Proof.
  unfold Auth.token_of. rewrite !append_cons, append_empty.
  rewrite !split_at_cons. cbn [Ascii.eqb Bool.eqb andb hd tl nth_error].
  destruct (Query.split_at " " rest) as [|word words] eqn:Hs; [|reflexivity].
  now destruct (split_at_nonempty " " rest).
Qed.

Lemma protect_bearer verify rest :
  Auth.protect verify (Some ("Bearer " ++ rest)%string) =
    match verify (hd EmptyString (Query.split_at " " rest)) with
    | Some user => Auth.Verified user
    | None => Auth.Rejected (res_error 401 "Invalid or expired token.")
    end.
Proof.
  unfold Auth.protect. rewrite token_of_bearer.
  assert (Hp : String.prefix "Bearer " ("Bearer " ++ rest) = true)
    by (apply prefix_app; eauto).
  rewrite Hp. reflexivity.
Qed.

(** What [protect] answers with is a 401. *)
Lemma protect_rejects verify authorization resp :
  Auth.protect verify authorization = Auth.Rejected resp ->
  exists msg, resp = res_error 401 msg.
Proof.
  unfold Auth.protect. destruct authorization as [header|]; [|intros [= <-]; eauto].
  destruct (_ || _); [intros [= <-]; eauto|].
  destruct (Auth.token_of header) as [token|]; [|intros [= <-]; eauto].
  destruct (verify token); [discriminate|intros [= <-]; eauto].
Qed.

End Words.

(** [protect] lets a request through exactly when its Authorization
    header is "Bearer " followed by a text whose first word, up to the
    next space, is a token that verifies; the request then runs as the
    identity of that token. *)
Theorem protect_accepts_exactly_bearer_tokens (verify : string -> option oid)
    (authorization : option string) (user : oid) :
  Auth.protect verify authorization = Auth.Verified user <->
  exists rest,
    authorization = Some ("Bearer " ++ rest)%string /\
    verify (hd EmptyString (Query.split_at " " rest)) = Some user.
Proof.
  split.
  - destruct authorization as [header|]; [|discriminate].
    destruct (String.prefix "Bearer " header) eqn:Hp.
    + apply prefix_app in Hp as (rest & ->). rewrite protect_bearer.
      destruct (verify _) as [u|] eqn:Hv; [|discriminate].
      intros [= ->]. eauto.
    + unfold Auth.protect. rewrite Hp, Bool.orb_true_r. discriminate.
  - intros (rest & -> & Hv). now rewrite protect_bearer, Hv.
Qed.

(** Whatever follows a second space in the header is not looked at:
    "Bearer <token> <anything>" is treated as "Bearer <token>". *)
Theorem protect_ignores_what_follows_the_token (verify : string -> option oid)
    (token junk : string) :
  ~ In " "%char (list_ascii_of_string token) ->
  Auth.protect verify (Some ("Bearer " ++ token ++ " " ++ junk)%string)
    = Auth.protect verify (Some ("Bearer " ++ token)%string).
Proof.
  intros Hword. rewrite !protect_bearer.
  destruct (split_at_word " " token Hword) as (-> & Hsep).
  change (token ++ " " ++ junk)%string with (token ++ String " " junk)%string.
  now rewrite Hsep.
Qed.

Lemma protect_ignores_what_follows_the_token_witness :
  Auth.protect (fun t => if String.eqb t "abc" then Some 7%N else None)
    (Some ("Bearer " ++ "abc" ++ " " ++ "anything else")%string)
    = Auth.protect (fun t => if String.eqb t "abc" then Some 7%N else None)
        (Some ("Bearer " ++ "abc")%string).
Proof.
  apply (protect_ignores_what_follows_the_token
           (fun t => if String.eqb t "abc" then Some 7%N else None) "abc" "anything else").
  simpl. intros [H|[H|[H|[]]]]; discriminate.
Defined.

(** Without a token that verifies, each of the four routes answers 401
    and nothing happens: no engine call, no session, no file touched. *)
Theorem unauthenticated_requests_change_nothing (verify : string -> option oid)
    (text : Multer.limit -> string) (P : Platform) (env : request_env)
    (r : Api.multipart) (json : obj) (id : string) (w : world) :
  (forall rest, Api.mp_authorization r = Some ("Bearer " ++ rest)%string ->
                verify (hd EmptyString (Query.split_at " " rest)) = None) ->
  exists msg,
    Api.post_upload verify text P env r w = (res_error 401 msg, w) /\
    Api.post_stored verify P env (Api.mp_authorization r) json w = (res_error 401 msg, w) /\
    Api.get_history verify P (Api.mp_authorization r) w = res_error 401 msg /\
    Api.get_history_item verify P (Api.mp_authorization r) id w = res_error 401 msg.
Proof.
  intros Hnone.
  unfold Api.post_upload, Api.post_stored, Api.get_history, Api.get_history_item.
  destruct (Api.mp_authorization r) as [header|]; [|simpl; eauto].
  destruct (String.prefix "Bearer " header) eqn:Hp.
  - apply prefix_app in Hp as (rest & ->). rewrite protect_bearer.
    rewrite (Hnone rest eq_refl). eauto.
  - unfold Auth.protect. rewrite Hp, Bool.orb_true_r. eauto.
Qed.

Lemma unauthenticated_requests_change_nothing_witness :
  exists msg,
    Api.post_upload (fun _ => None) (fun _ => "Too many files") Demo.up Demo.env1
      {| Api.mp_authorization := Some "Basic dXNlcjpwdw==";
         Api.mp_jd := Some "Go engineer"; Api.mp_weights := None; Api.mp_files := [] |}
      Demo.empty_world = (res_error 401 msg, Demo.empty_world) /\
    Api.post_stored (fun _ => None) Demo.up Demo.env1 (Some "Basic dXNlcjpwdw==")
      [("jd", VStr "Go engineer")] Demo.empty_world
      = (res_error 401 msg, Demo.empty_world) /\
    Api.get_history (fun _ => None) Demo.up (Some "Basic dXNlcjpwdw==") Demo.empty_world
      = res_error 401 msg /\
    Api.get_history_item (fun _ => None) Demo.up (Some "Basic dXNlcjpwdw==")
      "000000000000000000001000" Demo.empty_world = res_error 401 msg.
Proof.
  apply (unauthenticated_requests_change_nothing (fun _ => None) (fun _ => "Too many files")
           Demo.up Demo.env1
           {| Api.mp_authorization := Some "Basic dXNlcjpwdw==";
              Api.mp_jd := Some "Go engineer"; Api.mp_weights := None;
              Api.mp_files := [] |}).
  intros rest _. reflexivity.
Defined.

Section Gate.

Variable text : Multer.limit -> string.


Lemma filter_named_none parts :
  List.Forall (fun p => Multer.part_originalname p = "") parts ->
  List.filter Multer.named parts = [].
Proof.
  induction 1 as [|p parts Hname _ IH]; simpl; [reflexivity|].
  unfold Multer.named at 1. now rewrite Hname, IH.
Qed.

(** When the gate of POST /upload opens, and what it hands over. *)
Lemma array_ok parts : forall n m files,
  n <= m ->
  Multer.array text n "resumes" m parts = Ok files <->
  length parts <= n /\ List.Forall passes parts /\
  files = List.map Multer.stored_file (List.filter Multer.named parts).
Proof.
  induction parts as [|p parts IH]; intros n m files Hnm; simpl.
  - split.
    + intros [= <-]. repeat split; [lia|constructor].
    + now intros (_ & _ & ->).
  - destruct n as [|n].
    { split; [discriminate|]. intros (H & _). lia. }
    unfold Multer.named at 1.
    destruct (String.eqb_spec (Multer.part_originalname p) "") as [Hname|Hname];
      cbn [negb].
    { rewrite (IH n m files) by lia. split.
      - intros (Hlen & Hall & ->). repeat split; [lia|].
        constructor; [now left|exact Hall].
      - intros (Hlen & Hall & ->). inversion Hall; subst. repeat split; [lia|assumption]. }
    destruct (String.eqb_spec (Multer.part_fieldname p) "resumes") as [Hfield|Hfield];
      cbn [negb].
    2:{ split; [discriminate|]. intros (_ & Hall & _).
        inversion Hall as [|? ? [Hp|(_ & Hp & _)] _]; subst; contradiction. }
    destruct m as [|m]; [lia|].
    unfold Multer.fileFilter.
    destruct (String.eqb_spec (Multer.part_mimetype p) "application/pdf") as [Hpdf|Hpdf];
      simpl.
    2:{ split; [discriminate|]. intros (_ & Hall & _).
        inversion Hall as [|? ? [Hp|(_ & _ & Hp & _)] _]; subst; contradiction. }
    destruct (Multer.part_too_large p) eqn:Hsize.
    { split; [discriminate|]. intros (_ & Hall & _).
      inversion Hall as [|? ? [Hp|(_ & _ & _ & Hp)] _]; subst; congruence. }
    destruct (Multer.array text n "resumes" m parts) as [fs|e] eqn:Hrest; simpl.
    + destruct (proj1 (IH n m fs ltac:(lia)) Hrest) as (Hlen & Hall & ->).
      split.
      * intros [= <-]. repeat split; [lia|].
        constructor; [right; repeat split; assumption|exact Hall].
      * now intros (_ & _ & ->).
    + split; [discriminate|]. intros (Hlen & Hall & _).
      inversion Hall as [|? ? _ Hall']; subst.
      assert (Hok : Multer.array text n "resumes" m parts
                    = Ok (List.map Multer.stored_file (List.filter Multer.named parts)))
        by (apply IH; [lia|repeat split; [lia|exact Hall']]).
      congruence.
Qed.


Lemma array_throw_status parts : forall n m e,
  Multer.array text n "resumes" m parts = Throw e -> exn_status e = None.
Proof.
  induction parts as [|p parts IH]; intros n m e; simpl; [discriminate|].
  destruct n as [|n]; [now intros [= <-]|].
  destruct (String.eqb (Multer.part_originalname p) ""); [apply IH|].
  destruct (String.eqb (Multer.part_fieldname p) "resumes"); cbn [negb];
    [|now intros [= <-]].
  destruct m as [|m]; [now intros [= <-]|].
  unfold Multer.fileFilter.
  destruct (String.eqb (Multer.part_mimetype p) "application/pdf"); simpl;
    [|now intros [= <-]].
  destruct (Multer.part_too_large p); [now intros [= <-]|].
  destruct (Multer.array text n "resumes" m parts) as [fs|e'] eqn:Hrest; simpl;
    [discriminate|].
  intros [= <-]. now apply (IH n m).
Qed.

(** The first part multer refuses decides the error: when it is a file
    the filter refuses, the error is the filter's. *)
Lemma array_not_pdf before p after : forall n m,
  length before < n -> n <= m ->
  List.Forall passes before ->
  Multer.part_originalname p <> "" ->
  Multer.part_fieldname p = "resumes" ->
  Multer.part_mimetype p <> "application/pdf" ->
  Multer.array text n "resumes" m (before ++ p :: after)
    = Throw {| exn_status := None; exn_message := "Only PDF files are allowed." |}.
Proof.
  induction before as [|q before IH]; intros n m Hlen Hnm Hall Hname Hfield Hpdf; simpl in *.
  - destruct n as [|n]; [lia|].
    apply String.eqb_neq in Hname. rewrite Hname, Hfield, String.eqb_refl. cbn [negb].
    destruct m as [|m]; [lia|].
    unfold Multer.fileFilter. apply String.eqb_neq in Hpdf. now rewrite Hpdf.
  - destruct n as [|n]; [lia|].
    inversion Hall as [|? ? Hq Hall']; subst.
    destruct Hq as [Hq|(Hq1 & Hq2 & Hq3 & Hq4)].
    + rewrite Hq, String.eqb_refl. apply IH; auto; lia.
    + apply String.eqb_neq in Hq1. rewrite Hq1, Hq2. rewrite String.eqb_refl. cbn [negb].
      destruct m as [|m]; [lia|].
      unfold Multer.fileFilter. rewrite Hq3, String.eqb_refl. simpl. rewrite Hq4.
      rewrite (IH n m); auto; lia.
Qed.

End Gate.

(** C5, as the route has it: an upload submission without a job description
    (missing or empty) or without any document (no file part, or only
    parts without a file name) calls no engine and creates no session,
    and it fails: with 400 exactly when its token verifies and multer
    refuses none of its parts, with 401 exactly when its token does not
    verify, and with 500 otherwise, when multer refuses a part. *)
Theorem upload_rejects_invalid_input (verify : string -> option oid)
    (text : Multer.limit -> string) (P : Platform) (env : request_env)
    (r : Api.multipart) (w : world) :
  JS.truthy_text (Api.mp_jd r) = None \/
  List.Forall (fun p => Multer.part_originalname p = "") (Api.mp_files r) ->
  engine_calls (snd (Api.post_upload verify text P env r w)) = engine_calls w /\
  db (snd (Api.post_upload verify text P env r w)) = db w /\
  exists st msg,
    fst (Api.post_upload verify text P env r w) = res_error st msg /\
    (st = 400 \/ st = 401 \/ st = 500) /\
    (st = 400 <->
     (exists user, Auth.protect verify (Api.mp_authorization r) = Auth.Verified user) /\
     length (Api.mp_files r) <= 20 /\ List.Forall passes (Api.mp_files r)) /\
    (st = 401 <->
     forall user, Auth.protect verify (Api.mp_authorization r) <> Auth.Verified user).
Proof.
  intros Hinvalid. unfold Api.post_upload.
  destruct (Auth.protect verify (Api.mp_authorization r)) as [resp|user] eqn:Hauth.
  - destruct (protect_rejects _ _ _ Hauth) as (msg & ->). cbn [fst snd].
    repeat split; try reflexivity. exists 401, msg.
    repeat split; auto; try discriminate.
    intros ((user & Huser) & _). discriminate Huser.
  - destruct (Multer.array text 20 "resumes" 20 (Api.mp_files r)) as [files|e] eqn:Hgate.
    + apply array_ok in Hgate as (Hlen & Hall & ->); [|lia].
      destruct (handler_rejects_invalid_input P env
                  {| up_user := user; up_jd := Api.mp_jd r;
                     up_weights := Api.mp_weights r;
                     up_files := Some (List.map Multer.stored_file
                                         (List.filter Multer.named (Api.mp_files r))) |} w)
        as (msg & Hresp & Hcalls & Hdb).
      { destruct Hinvalid as [Hjd|Hnone]; [now left|right].
        cbn [up_files default]. now rewrite (filter_named_none _ Hnone). }
      repeat split; [exact Hcalls|exact Hdb|]. exists 400, msg.
      repeat split; eauto; try discriminate.
      intros H. now elim (H user).
    + pose proof (array_throw_status text _ _ _ _ Hgate) as Hst.
      cbn [fst snd]. repeat split; try reflexivity.
      unfold error_handler. rewrite Hst. eexists 500, _.
      repeat split; auto; try discriminate.
      * intros (_ & Hlen & Hall).
        assert (Hok : exists files,
                  Multer.array text 20 "resumes" 20 (Api.mp_files r) = Ok files)
          by (eexists; apply array_ok; [lia|repeat split; eauto]).
        destruct Hok as (files & Hok). congruence.
      * intros H. now elim (H user).
Qed.

Lemma upload_rejects_invalid_input_witness :
  engine_calls (snd (Api.post_upload ApiDemo.verify ApiDemo.limit_text Demo.up Demo.env1
                       ApiDemo.pdf_with_empty_jd Demo.empty_world))
    = engine_calls Demo.empty_world /\
  db (snd (Api.post_upload ApiDemo.verify ApiDemo.limit_text Demo.up Demo.env1
             ApiDemo.pdf_with_empty_jd Demo.empty_world)) = db Demo.empty_world /\
  exists st msg,
    fst (Api.post_upload ApiDemo.verify ApiDemo.limit_text Demo.up Demo.env1
           ApiDemo.pdf_with_empty_jd Demo.empty_world) = res_error st msg /\
    (st = 400 \/ st = 401 \/ st = 500) /\
    (st = 400 <->
     (exists user,
        Auth.protect ApiDemo.verify (Api.mp_authorization ApiDemo.pdf_with_empty_jd)
          = Auth.Verified user) /\
     length (Api.mp_files ApiDemo.pdf_with_empty_jd) <= 20 /\
     List.Forall passes (Api.mp_files ApiDemo.pdf_with_empty_jd)) /\
    (st = 401 <->
     forall user,
       Auth.protect ApiDemo.verify (Api.mp_authorization ApiDemo.pdf_with_empty_jd)
         <> Auth.Verified user).
Proof.
  apply (upload_rejects_invalid_input ApiDemo.verify ApiDemo.limit_text Demo.up Demo.env1
           ApiDemo.pdf_with_empty_jd Demo.empty_world).
  left. reflexivity.
Defined.

(** C5, as the claim has it, fails: a request without a job description whose file
    multer refuses is answered 500 by the error handler, not with a
    4xx. *)
Lemma refused_file_without_jd_is_answered_500 :
  JS.truthy_text (Api.mp_jd ApiDemo.notes_without_jd) = None /\
  fst (Api.post_upload ApiDemo.verify ApiDemo.limit_text Demo.up Demo.env1
         ApiDemo.notes_without_jd Demo.empty_world)
    = res_error 500 "Only PDF files are allowed." /\
  ~ (400 <= status (fst (Api.post_upload ApiDemo.verify ApiDemo.limit_text Demo.up
                           Demo.env1 ApiDemo.notes_without_jd Demo.empty_world)) <= 499).
Proof.
  split; [reflexivity|]. split; [reflexivity|].
  change (~ (400 <= 500 <= 499)). lia.
Qed.

(** A request whose files multer refuses (a 21st file part, a file under
    another field than [resumes], a file that is not a PDF by its type,
    a file over the size limit) never reaches the handler: it is
    answered by the error handler with 500, not with a 4xx, and nothing
    else happens.  The first part multer refuses decides the message:
    when that part is a file the filter refuses, the message is the
    filter's. *)
Theorem refused_files_are_answered_500 (verify : string -> option oid)
    (text : Multer.limit -> string) (P : Platform) (env : request_env)
    (r : Api.multipart) (w : world) (user : oid) :
  Auth.protect verify (Api.mp_authorization r) = Auth.Verified user ->
  ~ (length (Api.mp_files r) <= 20 /\ List.Forall passes (Api.mp_files r)) ->
  exists msg,
    Api.post_upload verify text P env r w = (res_error 500 msg, w) /\
    (forall before p after,
       Api.mp_files r = (before ++ p :: after)%list ->
       length before < 20 -> List.Forall passes before ->
       Multer.part_originalname p <> "" -> Multer.part_fieldname p = "resumes" ->
       Multer.part_mimetype p <> "application/pdf" ->
       msg = "Only PDF files are allowed.").
Proof.
  intros Hauth Hrefused. unfold Api.post_upload. rewrite Hauth.
  destruct (Multer.array text 20 "resumes" 20 (Api.mp_files r)) as [files|e] eqn:Hgate.
  - exfalso. apply Hrefused. apply array_ok in Hgate as (Hlen & Hall & _); [|lia].
    now split.
  - pose proof (array_throw_status text _ _ _ _ Hgate) as Hst.
    unfold error_handler. rewrite Hst. eexists. split; [reflexivity|].
    intros before p after Hparts Hlen Hall Hname Hfield Hpdf.
    rewrite Hparts, (array_not_pdf text before p after 20 20) in Hgate; auto.
    now injection Hgate as <-.
Qed.

Lemma refused_files_are_answered_500_witness :
  exists msg,
    Api.post_upload ApiDemo.verify ApiDemo.limit_text Demo.up Demo.env1
      ApiDemo.notes_with_jd Demo.empty_world = (res_error 500 msg, Demo.empty_world) /\
    (forall before p after,
       Api.mp_files ApiDemo.notes_with_jd = (before ++ p :: after)%list ->
       length before < 20 -> List.Forall passes before ->
       Multer.part_originalname p <> "" -> Multer.part_fieldname p = "resumes" ->
       Multer.part_mimetype p <> "application/pdf" ->
       msg = "Only PDF files are allowed.").
Proof.
  apply (refused_files_are_answered_500 ApiDemo.verify ApiDemo.limit_text Demo.up Demo.env1
           ApiDemo.notes_with_jd Demo.empty_world 7%N).
  - reflexivity.
  - intros (_ & Hall). inversion Hall as [|? ? [Hname|(_ & _ & Hpdf & _)] _];
      [discriminate Hname|discriminate Hpdf].
Defined.

(** * The resumes router *)

Section ResumeStore.

Variable S : Resumes.Services.
Variable P : Platform.

Lemma resume_create_ok env i w doc w' :
  Resumes.create S P env i w = (Ok doc, w') ->
  Resumes.build S env i = Some doc /\
  Resumes.rs_up w = true /\
  existsb (RankResult.has_id (fresh_id env)) (Resumes.rs_docs w) = false /\
  w' = Resumes.set_docs (Resumes.rs_docs w ++ [doc]) w.
Proof.
  unfold Resumes.create. intros H.
  destruct (Resumes.build S env i) as [d|]; [|discriminate].
  destruct (Resumes.rs_up w); simpl in H; [|discriminate].
  destruct (existsb _ (Resumes.rs_docs w)); [discriminate|].
  now inversion H.
Qed.

Lemma resume_create_throw env i w e w' :
  Resumes.create S P env i w = (Throw e, w') -> w' = w /\ exn_status e = None.
Proof.
  unfold Resumes.create. intros H.
  destruct (Resumes.build S env i) as [d|]; [|now inversion H].
  destruct (Resumes.rs_up w); simpl in H; [|now inversion H].
  destruct (existsb _ (Resumes.rs_docs w)); [now inversion H|discriminate].
Qed.

Lemma resume_build_Some env i doc :
  Resumes.build S env i = Some doc ->
  exists p,
    Resumes.castParsed S (Resumes.in_parsed i) = Some p /\
    doc = [("_id", VOid (fresh_id env));
           ("owner", VOid (Resumes.in_owner i));
           ("filename", VStr (Resumes.in_filename i));
           ("originalName", VStr (Resumes.in_originalName i));
           ("filePath", VStr (Resumes.in_filePath i));
           ("fileSize", VNum (inject_Z (Z.of_N (Resumes.in_fileSize i))));
           ("mlResumeId", VStr (Resumes.in_mlResumeId i));
           ("parsed", VObj p);
           ("embeddingStored", VBool (Resumes.in_embeddingStored i));
           ("createdAt", VDate (now env));
           ("updatedAt", VDate (now env));
           ("__v", VNum 0%Q)].
Proof.
  unfold Resumes.build. intros H.
  destruct (_ || _); [discriminate|].
  destruct (Resumes.castParsed S _) as [p|]; [|discriminate].
  injection H as <-. eauto.
Qed.

Lemma parse_fails_outcome c : parse_fails S P c -> Resumes.parse_outcome S P c = VNull.
Proof.
  unfold parse_fails, Resumes.parse_outcome.
  destruct (Resumes.ml S c) as [|st text]; [reflexivity|].
  intros [->|Hparse]; [reflexivity|]. rewrite Hparse. now destruct (res_ok st).
Qed.

Lemma delete_one_snoc i l d :
  existsb (RankResult.has_id i) l = false -> RankResult.has_id i d = true ->
  Resumes.delete_one i (l ++ [d]) = l.
Proof.
  induction l as [|e l IH]; simpl; intros Hl Hd.
  - now rewrite Hd.
  - apply Bool.orb_false_iff in Hl as (He & Hl). rewrite He. f_equal. now apply IH.
Qed.

End ResumeStore.

(** POST /resumes/upload does not fail when the engine does: if the parse
    call throws, answers with a status that is not a success or with a
    body that is not JSON, the resume is still stored and the answer is
    201; the stored resume has no parsed data from the engine and its
    [embeddingStored] is false. *)
Theorem resume_upload_survives_engine_failure (S : Resumes.Services) (P : Platform)
    (env : request_env) (resumeId : string) (user : oid) (f : Resumes.upload_file)
    (w : Resumes.store) (p : obj) :
  parse_fails S P (Resumes.Parse (Resumes.uf_path f) (Resumes.uf_originalname f) resumeId) ->
  Resumes.castParsed S None = Some p ->
  Resumes.uf_filename f <> "" -> Resumes.uf_originalname f <> "" ->
  Resumes.uf_path f <> "" ->
  Resumes.rs_up w = true ->
  existsb (RankResult.has_id (fresh_id env)) (Resumes.rs_docs w) = false ->
  exists doc,
    Resumes.upload S P env resumeId user (Some f) w
      = ({| status := 201;
            body := VObj [("id", VOid (fresh_id env));
                          ("mlResumeId", VStr resumeId);
                          ("parsed", VObj p)] |},
         Resumes.set_docs (Resumes.rs_docs w ++ [doc])
           (Resumes.log_call
              (Resumes.Parse (Resumes.uf_path f) (Resumes.uf_originalname f) resumeId) w)) /\
    JS.obj_get "embeddingStored" doc = Some (VBool false) /\
    JS.obj_get "parsed" doc = Some (VObj p) /\
    JS.obj_get "filePath" doc = Some (VStr (Resumes.uf_path f)).
Proof.
  intros Hfail Hp Hname Horig Hpath Hup Hfresh.
  unfold Resumes.upload. rewrite (parse_fails_outcome S P _ Hfail).
  cbn [JS.truthy JS.member JS.truthy_opt].
  unfold Resumes.create, Resumes.build. cbn [Resumes.in_filename Resumes.in_originalName
    Resumes.in_filePath Resumes.in_parsed Resumes.rs_up Resumes.rs_docs Resumes.log_call].
  apply String.eqb_neq in Hname, Horig, Hpath. rewrite Hname, Horig, Hpath, Hp, Hup, Hfresh.
  cbn [orb negb]. eexists. split; [reflexivity|]. repeat split.
Qed.

Lemma resume_upload_survives_engine_failure_witness :
  exists doc,
    Resumes.upload (ResumeDemo.services false) Demo.up Demo.env1 "r-1" 7%N
      (Some ResumeDemo.alice) ResumeDemo.empty_store
      = ({| status := 201;
            body := VObj [("id", VOid (fresh_id Demo.env1));
                          ("mlResumeId", VStr "r-1");
                          ("parsed", VObj [])] |},
         Resumes.set_docs (Resumes.rs_docs ResumeDemo.empty_store ++ [doc])
           (Resumes.log_call
              (Resumes.Parse (Resumes.uf_path ResumeDemo.alice)
                 (Resumes.uf_originalname ResumeDemo.alice) "r-1")
              ResumeDemo.empty_store)) /\
    JS.obj_get "embeddingStored" doc = Some (VBool false) /\
    JS.obj_get "parsed" doc = Some (VObj []) /\
    JS.obj_get "filePath" doc = Some (VStr (Resumes.uf_path ResumeDemo.alice)).
Proof.
  apply (resume_upload_survives_engine_failure (ResumeDemo.services false) Demo.up
           Demo.env1 "r-1" 7%N ResumeDemo.alice ResumeDemo.empty_store []).
  - exact I.
  - reflexivity.
  - discriminate.
  - discriminate.
  - discriminate.
  - reflexivity.
  - reflexivity.
Defined.

(** POST /resumes/upload keeps the uploaded file exactly when it stores
    the resume: a 201 leaves the disk as it is and appends one document
    that records the file's path and the owner; any other answer to a
    request with a file stores nothing and unlinks the file.  Either way
    the engine was sent one parse call. *)
Theorem resume_file_is_kept_exactly_on_success (S : Resumes.Services) (P : Platform)
    (env : request_env) (resumeId : string) (user : oid) (f : Resumes.upload_file)
    (w : Resumes.store) :
  Resumes.rs_calls (snd (Resumes.upload S P env resumeId user (Some f) w))
    = (Resumes.rs_calls w
       ++ [Resumes.Parse (Resumes.uf_path f) (Resumes.uf_originalname f) resumeId])%list /\
  (status (fst (Resumes.upload S P env resumeId user (Some f) w)) = 201 ->
   Resumes.rs_disk (snd (Resumes.upload S P env resumeId user (Some f) w))
     = Resumes.rs_disk w /\
   exists doc,
     Resumes.rs_docs (snd (Resumes.upload S P env resumeId user (Some f) w))
       = (Resumes.rs_docs w ++ [doc])%list /\
     JS.obj_get "filePath" doc = Some (VStr (Resumes.uf_path f)) /\
     JS.obj_get "owner" doc = Some (VOid user)) /\
  (status (fst (Resumes.upload S P env resumeId user (Some f) w)) <> 201 ->
   Resumes.rs_docs (snd (Resumes.upload S P env resumeId user (Some f) w))
     = Resumes.rs_docs w /\
   Resumes.rs_disk (snd (Resumes.upload S P env resumeId user (Some f) w))
     = Resumes.rs_disk w ∖ {[ Resumes.uf_path f ]}).
Proof.
  unfold Resumes.upload.
  destruct (Resumes.create S P env _ _) as [[doc|e] w'] eqn:Hc; cbn [fst snd].
  - apply resume_create_ok in Hc as (Hb & _ & _ & ->).
    apply resume_build_Some in Hb as (p & _ & ->).
    split; [reflexivity|]. split; [|intros H; now elim H].
    intros _. split; [reflexivity|]. eexists. split; [reflexivity|]. now split.
  - apply resume_create_throw in Hc as (-> & Hst).
    split; [reflexivity|]. split.
    + unfold error_handler. rewrite Hst. discriminate.
    + intros _. split; [reflexivity|]. simpl.
      unfold Fs.unlink. destruct (decide (Resumes.uf_path f ∈ Resumes.rs_disk w)); simpl;
        set_solver.
Qed.

(** DELETE /resumes/:id on a resume of another owner, or on an id no
    resume has, is answered 404 and does nothing: no file is unlinked,
    the engine is not called, no document goes. *)
Theorem resume_delete_of_a_foreign_resume_changes_nothing (S : Resumes.Services)
    (P : Platform) (user : oid) (id : string) (i : oid) (w : Resumes.store) :
  castObjectId P id = Some i ->
  Resumes.rs_up w = true ->
  (forall d, In d (Resumes.rs_docs w) -> RankResult.has_id i d = true ->
             RankResult.has_owner user d = false) ->
  Resumes.remove S P user id w = (res_error 404 "Resume not found.", w).
Proof.
  intros Hid Hup Hforeign. unfold Resumes.remove. rewrite Hid, Hup.
  assert (Hnone : Resumes.findOne i user w = None).
  { unfold Resumes.findOne. apply find_none_iff. intros d Hd.
    destruct (RankResult.has_id i d) eqn:Hi; [|reflexivity]. simpl. now apply Hforeign. }
  now rewrite Hnone.
Qed.

Lemma resume_delete_of_a_foreign_resume_changes_nothing_witness :
  Resumes.remove (ResumeDemo.services true) Demo.up 8%N "000000000000000000001000"
    (snd (Resumes.upload (ResumeDemo.services true) Demo.up Demo.env1 "r-1" 7%N
            (Some ResumeDemo.alice) ResumeDemo.empty_store))
    = (res_error 404 "Resume not found.",
       snd (Resumes.upload (ResumeDemo.services true) Demo.up Demo.env1 "r-1" 7%N
              (Some ResumeDemo.alice) ResumeDemo.empty_store)).
Proof.
  apply (resume_delete_of_a_foreign_resume_changes_nothing (ResumeDemo.services true)
           Demo.up 8%N "000000000000000000001000" 4096%N).
  - reflexivity.
  - reflexivity.
  - intros d [<-|[]] _. reflexivity.
Defined.

(** Deleting a resume undoes its upload: after a 201, DELETE by the owner
    under the new id answers with that id, the collection is again the
    one before the upload and the file is gone from the disk; the engine
    has been sent the parse call and then, when the resume id is not
    empty, one call to forget it, whose outcome changes nothing. *)
Theorem resume_delete_undoes_upload (S S' : Resumes.Services) (P : Platform)
    (env : request_env) (resumeId : string) (user : oid) (f : Resumes.upload_file)
    (w : Resumes.store) (id : string) :
  status (fst (Resumes.upload S P env resumeId user (Some f) w)) = 201 ->
  castObjectId P id = Some (fresh_id env) ->
  fst (Resumes.remove S' P user id (snd (Resumes.upload S P env resumeId user (Some f) w)))
    = res_json (VObj [("deleted", VOid (fresh_id env))]) /\
  Resumes.rs_docs
    (snd (Resumes.remove S' P user id
            (snd (Resumes.upload S P env resumeId user (Some f) w))))
    = Resumes.rs_docs w /\
  Resumes.rs_disk
    (snd (Resumes.remove S' P user id
            (snd (Resumes.upload S P env resumeId user (Some f) w))))
    = Resumes.rs_disk w ∖ {[ Resumes.uf_path f ]} /\
  Resumes.rs_calls
    (snd (Resumes.remove S' P user id
            (snd (Resumes.upload S P env resumeId user (Some f) w))))
    = (Resumes.rs_calls w
       ++ Resumes.Parse (Resumes.uf_path f) (Resumes.uf_originalname f) resumeId
          :: if String.eqb resumeId "" then [] else [Resumes.Forget (VStr resumeId)])%list.
Proof.
  intros Hst Hid. unfold Resumes.upload in *.
  destruct (Resumes.create S P env _ _) as [[doc|e] w'] eqn:Hc; cbn [fst snd] in *.
  - apply resume_create_ok in Hc as (Hb & Hup & Hfresh & ->).
    apply resume_build_Some in Hb as (p & _ & Hdoc).
    cbn [Resumes.in_owner Resumes.in_filename Resumes.in_originalName Resumes.in_filePath
         Resumes.in_fileSize Resumes.in_mlResumeId Resumes.in_embeddingStored] in Hdoc.
    cbn [Resumes.rs_up Resumes.rs_docs Resumes.log_call] in Hup, Hfresh.
    assert (Hpath : JS.obj_get "filePath" doc = Some (VStr (Resumes.uf_path f)))
      by (subst doc; reflexivity).
    assert (Hml : JS.obj_get "mlResumeId" doc = Some (VStr resumeId))
      by (subst doc; reflexivity).
    assert (Hdocid : RankResult._id doc = VOid (fresh_id env)) by (subst doc; reflexivity).
    assert (Hhas : RankResult.has_id (fresh_id env) doc = true)
      by (subst doc; unfold RankResult.has_id; simpl; apply N.eqb_refl).
    assert (Hown : RankResult.has_owner user doc = true)
      by (subst doc; unfold RankResult.has_owner; simpl; apply N.eqb_refl).
    clear Hdoc.
    unfold Resumes.remove. rewrite Hid. cbn [Resumes.rs_up Resumes.set_docs Resumes.log_call].
    rewrite Hup. unfold Resumes.findOne.
    cbn [Resumes.rs_docs Resumes.set_docs Resumes.log_call].
    rewrite find_app.
    assert (Hnone : List.find (fun d => RankResult.has_id (fresh_id env) d &&
                                        RankResult.has_owner user d) (Resumes.rs_docs w) = None).
    { apply find_none_iff. intros d Hd.
      destruct (RankResult.has_id (fresh_id env) d) eqn:Hi; [|reflexivity].
      exfalso. assert (E : existsb (RankResult.has_id (fresh_id env)) (Resumes.rs_docs w) = true)
        by (apply existsb_exists; eauto). congruence. }
    rewrite Hnone. cbn [List.find]. rewrite Hhas, Hown. cbn [andb].
    rewrite Hpath, Hml, Hdocid. cbn [JS.truthy].
    destruct (String.eqb resumeId ""); cbn [negb].
    + cbn [fst snd Resumes.rs_docs Resumes.rs_disk Resumes.rs_calls Resumes.set_docs
           Resumes.unlink Resumes.log_call].
      rewrite (delete_one_snoc _ _ _ Hfresh Hhas).
      repeat split. unfold Fs.unlink.
      destruct (decide (Resumes.uf_path f ∈ Resumes.rs_disk w)); simpl; set_solver.
    + destruct (Resumes.ml S' _);
        cbn [fst snd Resumes.rs_docs Resumes.rs_disk Resumes.rs_calls Resumes.set_docs
             Resumes.unlink Resumes.log_call];
        rewrite (delete_one_snoc _ _ _ Hfresh Hhas);
        (repeat split; [unfold Fs.unlink;
           destruct (decide (Resumes.uf_path f ∈ Resumes.rs_disk w)); simpl; set_solver
          |now rewrite <- app_assoc]).
  - apply resume_create_throw in Hc as (_ & Hnost).
    unfold error_handler in Hst. rewrite Hnost in Hst. discriminate.
Qed.

Lemma resume_delete_undoes_upload_witness :
  fst (Resumes.remove (ResumeDemo.services false) Demo.up 7%N "000000000000000000001000"
         (snd (Resumes.upload (ResumeDemo.services true) Demo.up Demo.env1 "r-1" 7%N
                 (Some ResumeDemo.alice) ResumeDemo.empty_store)))
    = res_json (VObj [("deleted", VOid (fresh_id Demo.env1))]) /\
  Resumes.rs_docs
    (snd (Resumes.remove (ResumeDemo.services false) Demo.up 7%N "000000000000000000001000"
            (snd (Resumes.upload (ResumeDemo.services true) Demo.up Demo.env1 "r-1" 7%N
                    (Some ResumeDemo.alice) ResumeDemo.empty_store))))
    = Resumes.rs_docs ResumeDemo.empty_store /\
  Resumes.rs_disk
    (snd (Resumes.remove (ResumeDemo.services false) Demo.up 7%N "000000000000000000001000"
            (snd (Resumes.upload (ResumeDemo.services true) Demo.up Demo.env1 "r-1" 7%N
                    (Some ResumeDemo.alice) ResumeDemo.empty_store))))
    = Resumes.rs_disk ResumeDemo.empty_store ∖ {[ Resumes.uf_path ResumeDemo.alice ]} /\
  Resumes.rs_calls
    (snd (Resumes.remove (ResumeDemo.services false) Demo.up 7%N "000000000000000000001000"
            (snd (Resumes.upload (ResumeDemo.services true) Demo.up Demo.env1 "r-1" 7%N
                    (Some ResumeDemo.alice) ResumeDemo.empty_store))))
    = (Resumes.rs_calls ResumeDemo.empty_store
       ++ Resumes.Parse (Resumes.uf_path ResumeDemo.alice)
            (Resumes.uf_originalname ResumeDemo.alice) "r-1"
          :: if String.eqb "r-1" "" then [] else [Resumes.Forget (VStr "r-1")])%list.
Proof.
  apply (resume_delete_undoes_upload (ResumeDemo.services true) (ResumeDemo.services false)
           Demo.up Demo.env1 "r-1" 7%N ResumeDemo.alice ResumeDemo.empty_store
           "000000000000000000001000").
  - reflexivity.
  - reflexivity.
Defined.



(** * The forms *)

(** The legacy form never sends more than 4 files, so its "at most 4"
    error cannot show: it reads one file from each of its four inputs.
    What it posts has a trimmed job description that is not empty and
    between 1 and 4 files. *)
Theorem static_form_posts_one_to_four_files (trim : string -> string) (jdValue : string)
    (r1 r2 r3 r4 : StaticApp.picker) :
  length (StaticApp.getSelectedResumeFiles r1 r2 r3 r4) <= 4 /\
  StaticApp.onSubmit trim jdValue r1 r2 r3 r4
    <> StaticApp.ShowError "Please select at most 4 resumes." /\
  forall jd files,
    StaticApp.onSubmit trim jdValue r1 r2 r3 r4 = StaticApp.Post jd files ->
    jd = trim jdValue /\ jd <> "" /\ 1 <= length files <= 4 /\
    files = StaticApp.getSelectedResumeFiles r1 r2 r3 r4.
Proof.
  assert (Hlen : length (StaticApp.getSelectedResumeFiles r1 r2 r3 r4) <= 4).
  { unfold StaticApp.getSelectedResumeFiles. simpl. rewrite !length_app. simpl.
    assert (H : forall r, length (StaticApp.first_file r) <= 1)
      by (intros [[[|f l]|]|]; simpl; lia).
    pose proof (H r1). pose proof (H r2). pose proof (H r3). pose proof (H r4). lia. }
  split; [exact Hlen|]. unfold StaticApp.onSubmit.
  destruct (String.eqb_spec (trim jdValue) "") as [Hjd|Hjd].
  { split; [discriminate|]. discriminate. }
  destruct (Nat.eqb_spec (length (StaticApp.getSelectedResumeFiles r1 r2 r3 r4)) 0)
    as [Hz|Hz].
  { split; [discriminate|]. discriminate. }
  destruct (Nat.ltb_spec 4 (length (StaticApp.getSelectedResumeFiles r1 r2 r3 r4)))
    as [Hmany|Hfew]; [lia|].
  split; [discriminate|]. intros jd files [= <- <-]. repeat split; auto; lia.
Qed.


